(** * Contacts REST backend: repository layer and contact routes

    A shallow embedding of [src/repository/contacts.py],
    [src/repository/users.py] and of the search routes of
    [src/routes/contacts.py], together with the relational store they
    talk to (the [contacts] table of the initial migration and the
    [users] table), and the properties of the specification that can be
    stated over them.

    Conventions.
    - A table is a finite map from its primary key [id] to the remaining
      columns of the row; the ORM object handed to Python code is the
      key together with the columns.
    - Every repository function is a computation over the database
      session that either raises a Python exception or returns a value
      together with the new stored state.
    - [date.today()], the gravatar service, the store clock and the
      order in which the store scans a table for a query without
      [ORDER BY] are inputs of the functions that consult them.
    - The store is the PostgreSQL database of the application: [LIKE]
      is case-sensitive with the backslash as escape character, and an
      [OFFSET] or [LIMIT] that is negative or beyond the 64-bit range
      is an error. *)

From Stdlib Require Import ZArith String Ascii List Lia.
From stdpp Require Import base option list sorting gmap strings pretty.

Open Scope string_scope.
Open Scope Z_scope.

(** ** Exceptions *)

(** The Python exceptions that the modelled code can raise. *)
Inductive exn : Type :=
| IntegrityError                                   (* sqlalchemy.exc.IntegrityError *)
| DataError                                        (* sqlalchemy.exc.DataError *)
| AttributeError                                   (* attribute access on None *)
| OverflowError                                    (* date value out of range *)
| HTTPException (status_code : Z) (detail : string).

Inductive result (A : Type) : Type :=
| Raise (e : exn)
| Ok (a : A).
Arguments Raise {A} e.
Arguments Ok {A} a.

(** ** Calendar dates ([datetime.date]) *)

Module date.

Record t : Type := mk { year : Z; month : Z; day : Z }.

Definition MAXYEAR : Z := 9999.

Definition is_leap (y : Z) : bool :=
  (y mod 4 =? 0) && (negb (y mod 100 =? 0) || (y mod 400 =? 0)).

Definition days_in_month (y m : Z) : Z :=
  if m =? 2 then (if is_leap y then 29 else 28)
  else if (m =? 4) || (m =? 6) || (m =? 9) || (m =? 11) then 30
  else 31.

(** A value that [datetime.date] can hold. *)
Definition valid (d : t) : bool :=
  (1 <=? year d) && (year d <=? MAXYEAR) &&
  (1 <=? month d) && (month d <=? 12) &&
  (1 <=? day d) && (day d <=? days_in_month (year d) (month d)).

(** [d + timedelta(days=1)]; [None] stands for the [OverflowError]
    raised past 9999-12-31. *)
Definition tomorrow (d : t) : option t :=
  if day d <? days_in_month (year d) (month d)
  then Some (mk (year d) (month d) (day d + 1))
  else if month d <? 12
  then Some (mk (year d) (month d + 1) 1)
  else if year d <? MAXYEAR
  then Some (mk (year d + 1) 1 1)
  else None.

(** [d + timedelta(days=n)] for a natural number of days. *)
Fixpoint add_days (d : t) (n : nat) : option t :=
  match n with
  | O => Some d
  | S k => match tomorrow d with
           | Some d' => add_days d' k
           | None => None
           end
  end.

#[global] Instance eq_dec : EqDecision t.
Proof. solve_decision. Defined.

End date.

(** [str(n)] for a Python [int], and the text of an SQL integer cast to
    [String]. *)
Definition str (n : Z) : string := pretty n.

(** ** SQL [LIKE]

    [like_match p s] is [s LIKE p]: in the pattern [%] matches any
    sequence of characters, [_] matches exactly one character, a
    backslash makes the next pattern character literal, and any other
    character matches itself; the comparison is case-sensitive.  A
    pattern that ends in a lone backslash matches nothing; the patterns
    built by the repository end in [%] and never reach that case. *)
Fixpoint like_match (p s : string) {struct p} : bool :=
  match p with
  | EmptyString => match s with EmptyString => true | String _ _ => false end
  | String a p' =>
      if Ascii.eqb a "%" then
        (fix any (s : string) : bool :=
           like_match p' s ||
           match s with
           | EmptyString => false
           | String _ s' => any s'
           end) s
      else if Ascii.eqb a "_" then
        match s with
        | EmptyString => false
        | String _ s' => like_match p' s'
        end
      else if Ascii.eqb a "\" then
        match p' with
        | EmptyString => false
        | String b p'' =>
            match s with
            | EmptyString => false
            | String c s' => Ascii.eqb b c && like_match p'' s'
            end
        end
      else
        match s with
        | EmptyString => false
        | String c s' => Ascii.eqb a c && like_match p' s'
        end
  end.

(** Python's [sub in s] on strings: [sub] occurs in [s] as a literal,
    case-sensitive substring. *)
Fixpoint starts_with (sub s : string) : bool :=
  match sub with
  | EmptyString => true
  | String a sub' =>
      match s with
      | EmptyString => false
      | String c s' => Ascii.eqb a c && starts_with sub' s'
      end
  end.

Fixpoint contains (sub s : string) : bool :=
  starts_with sub s ||
  match s with
  | EmptyString => false
  | String _ s' => contains sub s'
  end.

(** ** Data model *)

(** A row of the [contacts] table (columns of the migration, plus the
    owning user reference) and the ORM object [Contact]. *)
Module Contact.

Record cols : Type := Cols {
  name : string;                  (* String(50), not null *)
  surname : string;               (* String(50), not null *)
  email : string;                 (* String(100), not null, unique *)
  phone : string;                 (* String(15), not null, unique *)
  birthday : date.t;              (* Date, not null *)
  description : option string;    (* String(150), nullable *)
  user_id : Z                     (* owning user *)
}.

Record t : Type := mk { id : Z; data : cols }.

#[global] Instance cols_eq_dec : EqDecision cols.
Proof. solve_decision. Defined.

#[global] Instance eq_dec : EqDecision t.
Proof. solve_decision. Defined.

End Contact.

(** A row of the [users] table and the ORM object [User]. *)
Module User.

Record cols : Type := Cols {
  username : string;
  email : string;                 (* unique *)
  password : string;
  created_at : Z;                 (* timestamp set by the store *)
  avatar : option string;         (* nullable *)
  refresh_token : option string;  (* nullable *)
  confirmed : bool                (* default False *)
}.

Record t : Type := mk { id : Z; data : cols }.

#[global] Instance cols_eq_dec : EqDecision cols.
Proof. solve_decision. Defined.

#[global] Instance eq_dec : EqDecision t.
Proof. solve_decision. Defined.

End User.

(** Request bodies of [src/schemas.py]. *)
Module ContactModel.

Record t : Type := mk {
  name : string;
  surname : string;
  email : string;
  phone : string;
  birthday : date.t;
  description : string
}.

(** The constraints of the schema: [Field(max_length=...)] on the five
    texts, and a calendar date. *)
Definition valid (body : t) : bool :=
  (String.length (name body) <=? 50)%nat &&
  (String.length (surname body) <=? 50)%nat &&
  (String.length (email body) <=? 100)%nat &&
  (String.length (phone body) <=? 15)%nat &&
  date.valid (birthday body) &&
  (String.length (description body) <=? 150)%nat.

End ContactModel.

(** [ContactUpdate] inherits every field of [ContactModel] and adds none. *)
Module ContactUpdate := ContactModel.

Module UserModel.

Record t : Type := mk {
  username : string;
  email : string;
  password : string
}.

End UserModel.

(** ** The store behind a database session *)

Record Session : Type := mkSession {
  contacts : gmap Z Contact.cols;
  users : gmap Z User.cols
}.

(** [db.query(Contact)] and [db.query(User)]: the rows of a table as ORM
    objects, in the order in which the store scans them. *)
Definition query_Contact (db : Session) : list Contact.t :=
  (fun kr => Contact.mk kr.1 kr.2) <$> map_to_list (contacts db).

Definition query_User (db : Session) : list User.t :=
  (fun kr => User.mk kr.1 kr.2) <$> map_to_list (users db).

(** The identifier the store generates for an inserted row: one more
    than the largest identifier in the table, hence one that no stored
    row carries. *)
Definition generated_id {V : Type} (table : gmap Z V) : Z :=
  1 + foldr Z.max 0 ((map_to_list table).*1).

(** The [UniqueConstraint('email')] and [UniqueConstraint('phone')] of
    the [contacts] table, checked when the row with key [k] is written:
    some other row already holds the same email or the same phone. *)
Definition contacts_unique_violation
    (k : Z) (r : Contact.cols) (db : Session) : bool :=
  existsb (fun c =>
             negb (Contact.id c =? k) &&
             (String.eqb (Contact.email (Contact.data c)) (Contact.email r) ||
              String.eqb (Contact.phone (Contact.data c)) (Contact.phone r)))
          (query_Contact db).

(** Modelled from the spec: the declaration of the [users] table is not
    part of the sources; the data model gives the user a globally unique
    email, so writing the row with key [k] is refused when some other
    row already holds the same email. *)
Definition users_unique_violation
    (k : Z) (r : User.cols) (db : Session) : bool :=
  existsb (fun u =>
             negb (User.id u =? k) &&
             String.eqb (User.email (User.data u)) (User.email r))
          (query_User db).

Definition set_contacts (db : Session) (table : gmap Z Contact.cols) : Session :=
  mkSession table (users db).

Definition set_users (db : Session) (table : gmap Z User.cols) : Session :=
  mkSession (contacts db) table.

(** Computations over a session: the outcome (an exception raised or a
    value returned) together with the stored state the call leaves
    behind.  The store changes only at a successful [db.commit()]. *)
Definition M (A : Type) : Type := Session -> result A * Session.

Definition ret {A : Type} (a : A) : M A := fun db => (Ok a, db).

Definition raise {A : Type} (e : exn) : M A := fun db => (Raise e, db).

Definition bind {A B : Type} (m : M A) (k : A -> M B) : M B :=
  fun db => match m db with
            | (Raise e, db') => (Raise e, db')
            | (Ok a, db') => k a db'
            end.

Notation "'let*' x ':=' m 'in' k" := (bind m (fun x => k))
  (at level 10, x name, m at level 100, k at level 200, only parsing).

(** ** [src/repository/contacts.py] *)

Module repository_contacts.

Definition owned_by (user : User.t) (c : Contact.t) : Prop :=
  Contact.user_id (Contact.data c) = User.id user.

#[global] Instance owned_by_dec (user : User.t) (c : Contact.t)
  : Decision (owned_by user c) :=
  Z.eq_dec (Contact.user_id (Contact.data c)) (User.id user).

(** The largest row count the store accepts in [OFFSET] and [LIMIT]
    (a 64-bit integer). *)
Definition BIGINT_MAX : Z := 9223372036854775807.

(** A query without [ORDER BY] returns its rows in the order in which
    the store happens to scan them.  That order is an input:
    [position id] is the place of the row [id] in the scan, and the rows
    come by increasing place. *)
Definition scanned_before (position : Z -> Z) (c1 c2 : Contact.t) : Prop :=
  position (Contact.id c1) <= position (Contact.id c2).

#[global] Instance scanned_before_dec (position : Z -> Z) (c1 c2 : Contact.t)
  : Decision (scanned_before position c1 c2) :=
  Z_le_dec (position (Contact.id c1)) (position (Contact.id c2)).

Definition scan_order (position : Z -> Z) (rows : list Contact.t)
  : list Contact.t :=
  merge_sort (scanned_before position) rows.

(** [.offset(skip).limit(limit)]: the store rejects a row count that is
    negative or beyond its integer range with a data error. *)
Definition get_contacts (position : Z -> Z) (skip limit : Z) (user : User.t)
  : M (list Contact.t) :=
  fun db =>
    if (skip <? 0) || (limit <? 0) ||
       (BIGINT_MAX <? skip) || (BIGINT_MAX <? limit)
    then (Raise DataError, db)
    else (Ok (take (Z.to_nat limit)
                (drop (Z.to_nat skip)
                   (filter (owned_by user)
                      (scan_order position (query_Contact db))))),
          db).

(** [db.query(Contact).filter(and_(Contact.id == contact_id),
    Contact.user_id == user.id).first()], shared by [get_contact],
    [remove_contact] and [update_contact]. *)
Definition first_contact (contact_id : Z) (user : User.t) (db : Session)
  : option Contact.t :=
  head (filter (fun c => Contact.id c = contact_id /\ owned_by user c)
          (query_Contact db)).

Definition get_contact (contact_id : Z) (user : User.t)
  : M (option Contact.t) :=
  fun db => (Ok (first_contact contact_id user db), db).

(** The f-string [f'%{part}%']. *)
Definition like_pattern (part : string) : string :=
  "%" ++ part ++ "%".

Definition get_contacts_name (name : string) (user : User.t)
  : M (list Contact.t) :=
  fun db =>
    (Ok (filter (fun c =>
                   like_match (like_pattern name)
                     (Contact.name (Contact.data c)) = true
                   /\ owned_by user c)
           (query_Contact db)), db).

Definition get_contacts_surname (surname : string) (user : User.t)
  : M (list Contact.t) :=
  fun db =>
    (Ok (filter (fun c =>
                   like_match (like_pattern surname)
                     (Contact.surname (Contact.data c)) = true
                   /\ owned_by user c)
           (query_Contact db)), db).

Definition get_contacts_email (email_part : string) (user : User.t)
  : M (list Contact.t) :=
  fun db =>
    (Ok (filter (fun c =>
                   like_match (like_pattern email_part)
                     (Contact.email (Contact.data c)) = true
                   /\ owned_by user c)
           (query_Contact db)), db).

(** [str(day.day) + str(day.month)], and the SQL expression
    [concat(cast(extract(day ...)), cast(extract(month ...)))]. *)
Definition day_month_key (d : date.t) : string :=
  str (date.day d) ++ str (date.month d).

(** The loop [for i in range(7)] that fills [days]; [None] when the
    date addition overflows. *)
Definition birthday_days (today : date.t) : option (list string) :=
  mapM (fun i => day_month_key <$> date.add_days today i) (seq 0 7).

Definition get_contacts_birthday (today : date.t) (user : User.t)
  : M (list Contact.t) :=
  fun db =>
    match birthday_days today with
    | None => (Raise OverflowError, db)
    | Some days =>
        (Ok (filter (fun c =>
                       day_month_key (Contact.birthday (Contact.data c)) ∈ days
                       /\ owned_by user c)
               (query_Contact db)), db)
    end.

(** The row built by [Contact(name=body.name, ..., user_id=user.id)]
    and by the six assignments of [update_contact]. *)
Definition row_of (body : ContactModel.t) (owner : Z) : Contact.cols :=
  Contact.Cols (ContactModel.name body) (ContactModel.surname body)
    (ContactModel.email body) (ContactModel.phone body)
    (ContactModel.birthday body) (Some (ContactModel.description body))
    owner.

Definition create_contact (body : ContactModel.t) (user : User.t)
  : M Contact.t :=
  fun db =>
    let row := row_of body (User.id user) in
    let k := generated_id (contacts db) in
    if contacts_unique_violation k row db then (Raise IntegrityError, db)
    else (Ok (Contact.mk k row),
          set_contacts db (<[k := row]> (contacts db))).

Definition remove_contact (contact_id : Z) (user : User.t)
  : M (option Contact.t) :=
  fun db =>
    match first_contact contact_id user db with
    | Some contact =>
        (Ok (Some contact),
         set_contacts db (delete (Contact.id contact) (contacts db)))
    | None => (Ok None, db)
    end.

Definition update_contact (contact_id : Z) (body : ContactUpdate.t)
    (user : User.t) : M (option Contact.t) :=
  fun db =>
    match first_contact contact_id user db with
    | Some contact =>
        let row := row_of body (Contact.user_id (Contact.data contact)) in
        if contacts_unique_violation (Contact.id contact) row db
        then (Raise IntegrityError, db)
        else (Ok (Some (Contact.mk (Contact.id contact) row)),
              set_contacts db
                (<[Contact.id contact := row]> (contacts db)))
    | None => (Ok None, db)
    end.

End repository_contacts.

(** ** [src/repository/users.py] *)

(** What [Gravatar(email).get_image()] does: it returns the image URL or
    raises an exception (carried here by its message). *)
Inductive gravatar_outcome : Type :=
| Resolved (url : string)
| Failed (message : string).

Module repository_users.

(** [db.query(User).filter(User.email == email).first()] *)
Definition first_user (email : string) (db : Session) : option User.t :=
  head (filter (fun u => User.email (User.data u) = email) (query_User db)).

Definition get_user_by_email (email : string) : M (option User.t) :=
  fun db => (Ok (first_user email db), db).

(** The [try] block: [avatar] stays [None] when the lookup raises (the
    handler only prints the exception). *)
Definition resolve_avatar (gravatar : string -> gravatar_outcome)
    (email : string) : option string :=
  match gravatar email with
  | Resolved url => Some url
  | Failed _ => None
  end.

(** The [User] built from the fields of [body] and from [avatar]; the
    store fills the remaining columns with their defaults. *)
Definition new_user (body : UserModel.t) (avatar : option string)
    (now : Z) : User.cols :=
  User.Cols (UserModel.username body) (UserModel.email body)
    (UserModel.password body) now avatar None false.

Definition create_user (gravatar : string -> gravatar_outcome) (now : Z)
    (body : UserModel.t) : M User.t :=
  fun db =>
    let avatar := resolve_avatar gravatar (UserModel.email body) in
    let row := new_user body avatar now in
    let k := generated_id (users db) in
    if users_unique_violation k row db then (Raise IntegrityError, db)
    else (Ok (User.mk k row), set_users db (<[k := row]> (users db))).

Definition set_confirmed (r : User.cols) (b : bool) : User.cols :=
  User.Cols (User.username r) (User.email r) (User.password r)
    (User.created_at r) (User.avatar r) (User.refresh_token r) b.

Definition set_avatar (r : User.cols) (url : option string) : User.cols :=
  User.Cols (User.username r) (User.email r) (User.password r)
    (User.created_at r) url (User.refresh_token r) (User.confirmed r).

(** [user.confirmed = True] on the result of [get_user_by_email]: an
    attribute assignment on [None] raises [AttributeError]. *)
Definition confirmed_email (email : string) : M unit :=
  let* found := get_user_by_email email in
  match found with
  | None => raise AttributeError
  | Some user =>
      fun db =>
        (Ok tt,
         set_users db
           (<[User.id user := set_confirmed (User.data user) true]>
              (users db)))
  end.

Definition update_avatar (email : string) (url : string) : M User.t :=
  let* found := get_user_by_email email in
  match found with
  | None => raise AttributeError
  | Some user =>
      fun db =>
        let row := set_avatar (User.data user) (Some url) in
        (Ok (User.mk (User.id user) row),
         set_users db (<[User.id user := row]> (users db)))
  end.

Definition set_refresh_token (r : User.cols) (token : option string)
  : User.cols :=
  User.Cols (User.username r) (User.email r) (User.password r)
    (User.created_at r) (User.avatar r) token (User.confirmed r).

(** [user.refresh_token = token] followed by the commit: [user] is an
    object of this session, and the flush writes the one changed column
    of its row ([UPDATE users SET refresh_token ... WHERE id = user.id]);
    an object without a row in the store has nothing to flush. *)
Definition update_token (user : User.t) (token : option string) : M unit :=
  fun db =>
    (Ok tt,
     set_users db
       (alter (fun r => set_refresh_token r token) (User.id user) (users db))).

End repository_users.

(** ** [src/routes/contacts.py]

    The handlers behind the HTTP interface; [current_user] is the user
    resolved from the bearer token. *)

Module routes_contacts.

Definition HTTP_404_NOT_FOUND : Z := 404.

Definition read_contact (contact_id : Z) (current_user : User.t)
  : M Contact.t :=
  let* contact := repository_contacts.get_contact contact_id current_user in
  match contact with
  | None => raise (HTTPException HTTP_404_NOT_FOUND "Contact not found")
  | Some c => ret c
  end.

(** [if not contacts: raise HTTPException(...)] followed by
    [return contacts]. *)
Definition not_empty (detail : string) (found : list Contact.t)
  : M (list Contact.t) :=
  match found with
  | [] => raise (HTTPException HTTP_404_NOT_FOUND detail)
  | _ :: _ => ret found
  end.




Definition read_birthdays (today : date.t) (current_user : User.t)
  : M (list Contact.t) :=
  let* found :=
    repository_contacts.get_contacts_birthday today current_user in
  not_empty "Contacts not found" found.

(** The defaults of the query parameters of [read_contacts]. *)
Definition default_skip : Z := 0.

Definition default_limit : Z := 100.

(** [skip] and [limit] are optional query parameters; [position] is the
    scan order of the store when the request is served. *)
Definition read_contacts (position : Z -> Z) (skip limit : option Z)
    (current_user : User.t) : M (list Contact.t) :=
  repository_contacts.get_contacts position (default default_skip skip)
    (default default_limit limit) current_user.

Definition create_contact (body : ContactModel.t) (current_user : User.t)
  : M Contact.t :=
  repository_contacts.create_contact body current_user.

Definition update_contact (body : ContactUpdate.t) (contact_id : Z)
    (current_user : User.t) : M Contact.t :=
  let* contact :=
    repository_contacts.update_contact contact_id body current_user in
  match contact with
  | None => raise (HTTPException HTTP_404_NOT_FOUND "Contact not found")
  | Some c => ret c
  end.

Definition remove_contact (contact_id : Z) (current_user : User.t)
  : M Contact.t :=
  let* contact := repository_contacts.remove_contact contact_id current_user in
  match contact with
  | None => raise (HTTPException HTTP_404_NOT_FOUND "Contact not found")
  | Some c => ret c
  end.

End routes_contacts.

(** ** Reference notions of the specification *)

(** The birthday window: the (day, month) of [d] is the (day, month) of
    one of the seven calendar days [today], ..., [today + 6]. *)
Definition in_next_seven_days (today d : date.t) : bool :=
  existsb (fun i =>
             match date.add_days today i with
             | Some d' => (date.day d' =? date.day d) &&
                          (date.month d' =? date.month d)
             | None => false
             end)
          (seq 0 7).

(** The characters that [LIKE] interprets, and the search texts that
    hold none of them. *)
Definition is_wildcard (a : ascii) : bool :=
  Ascii.eqb a "%" || Ascii.eqb a "_" || Ascii.eqb a "\".

Fixpoint plain (s : string) : bool :=
  match s with
  | EmptyString => true
  | String a s' => negb (is_wildcard a) && plain s'
  end.

(** A search text without the escape character of [LIKE]. *)
Fixpoint no_backslash (s : string) : bool :=
  match s with
  | EmptyString => true
  | String a s' => negb (Ascii.eqb a "\") && no_backslash s'
  end.

(** The state the unique constraints of the [contacts] table maintain:
    no row conflicts with another row on email or phone. *)
Definition contacts_unique (db : Session) : bool :=
  forallb (fun c =>
             negb (contacts_unique_violation (Contact.id c) (Contact.data c) db))
          (query_Contact db).

(** The same for the unique email of the [users] table. *)
Definition users_unique (db : Session) : bool :=
  forallb (fun u =>
             negb (users_unique_violation (User.id u) (User.data u) db))
          (query_User db).

(** A day and a month whose decimal texts have the same number of
    digits: both below ten, or both from ten on. *)
Definition same_width (d : date.t) : bool :=
  ((date.day d <? 10) && (date.month d <? 10)) ||
  ((10 <=? date.day d) && (10 <=? date.month d)).

(** ** Sample data *)

Module Examples.

Definition alice : User.t :=
  User.mk 1 (User.Cols "alice" "alice@example.com" "secret" 0 None None true).

Definition bob : User.t :=
  User.mk 2 (User.Cols "bobby" "bob@example.com" "hunter2" 0 None None true).

Definition feb11 : Contact.cols :=
  Contact.Cols "Bob" "Stone" "bob.stone@example.com" "+380971111111"
    (date.mk 1990 2 11) (Some "friend") 1.

Definition may15 : Contact.cols :=
  Contact.Cols "Test" "Contact" "test@example.com" "+380971234567"
    (date.mk 1990 5 15) (Some "") 1.

Definition db_empty : Session := mkSession ∅ ∅.

(** One contact, owned by [alice]; no user rows. *)
Definition db_one : Session := mkSession (<[1 := feb11]> ∅) ∅.

(** Two users, and two contacts that both belong to [alice]. *)
Definition db_two : Session :=
  mkSession (<[2 := may15]> (<[1 := feb11]> ∅))
    (<[2 := User.data bob]> (<[1 := User.data alice]> ∅)).

Definition dec1 : date.t := date.mk 2023 12 1.

Definition new_contact : ContactModel.t :=
  ContactModel.mk "Ann" "Lee" "ann@example.com" "+380972222222"
    (date.mk 2001 7 4) "colleague".

(** A body that reuses the email of the stored contact [feb11]. *)
Definition same_email : ContactModel.t :=
  ContactModel.mk "Ann" "Lee" "bob.stone@example.com" "+380972222222"
    (date.mk 2001 7 4) "colleague".

Definition gravatar_up (email : string) : gravatar_outcome :=
  Resolved ("https://www.gravatar.com/avatar/" ++ email).

Definition gravatar_down (email : string) : gravatar_outcome :=
  Failed "Gravatar error".

Definition carol : UserModel.t :=
  UserModel.mk "carol" "carol@example.com" "pass123".

(** A signup body that reuses the email of the stored user [bob]. *)
Definition bob_again : UserModel.t :=
  UserModel.mk "bobby2" "bob@example.com" "pass123".

(** Contacts of two owners: 1 and 2 belong to [alice], 3 to [bob]. *)
Definition oct12 : Contact.cols :=
  Contact.Cols "Rob" "Pike" "rob@example.com" "+380973333333"
    (date.mk 1985 10 12) None 2.

Definition db_three : Session :=
  mkSession (<[3 := oct12]> (<[2 := may15]> (<[1 := feb11]> ∅)))
    (<[2 := User.data bob]> (<[1 := User.data alice]> ∅)).

Definition leap_day : Contact.cols :=
  Contact.Cols "Leap" "Year" "leap@example.com" "+380974444444"
    (date.mk 2000 2 29) None 1.

Definition db_leap : Session := mkSession (<[1 := leap_day]> ∅) ∅.

Definition feb25_2023 : date.t := date.mk 2023 2 25.

Definition oct10 : date.t := date.mk 2024 10 10.

(** A contact after the rename of the route test. *)
Definition renamed : Contact.cols :=
  Contact.Cols "Test" "New_Contact" "test@example.com" "+380971234567"
    (date.mk 1990 5 15) (Some "") 1.

Definition db_renamed : Session := mkSession (<[1 := renamed]> ∅) ∅.

Definition last_days : date.t := date.mk 9999 12 28.

(** A body that reuses the phone of the stored contact [feb11]. *)
Definition same_phone : ContactModel.t :=
  ContactModel.mk "Ann" "Lee" "ann@example.com" "+380971111111"
    (date.mk 2001 7 4) "colleague".

(** Two scan orders: by increasing id, and newest row first. *)
Definition by_id : Z -> Z := fun id => id.

Definition newest_first : Z -> Z := fun id => - id.

(** A user who signed up and has not confirmed the email yet. *)
Definition dave : User.t :=
  User.mk 3 (User.Cols "dave1" "dave@example.com" "secret" 5 None None false).

Definition db_signup : Session :=
  mkSession ∅ (<[3 := User.data dave]> (<[1 := User.data alice]> ∅)).

End Examples.

(** * Properties *)

(** ** The calendar *)

Section calendar.

Lemma days_in_month_bounds (y m : Z) : 28 <= date.days_in_month y m <= 31.
Proof.
  unfold date.days_in_month.
  destruct (m =? 2); [destruct (date.is_leap y); lia|].
  destruct (_ || _); lia.
Qed.

(** The day after a date that [datetime.date] can hold is again such a
    date. *)
Lemma tomorrow_valid (d d' : date.t) :
  date.valid d = true -> date.tomorrow d = Some d' -> date.valid d' = true.
Proof.
  unfold date.valid, date.tomorrow, date.MAXYEAR. intros Hv Ht.
  repeat (apply andb_true_iff in Hv as [Hv ?]).
  pose proof (days_in_month_bounds (date.year d) (date.month d)).
  pose proof (days_in_month_bounds (date.year d) (date.month d + 1)).
  pose proof (days_in_month_bounds (date.year d + 1) 1).
  destruct (date.day d <? _) eqn:E1;
    [|destruct (date.month d <? 12) eqn:E2;
      [|destruct (date.year d <? 9999) eqn:E3; [|done]]];
    injection Ht as <-; simpl;
    repeat (apply andb_true_iff; split); lia.
Qed.

Lemma add_days_valid (n : nat) (d d' : date.t) :
  date.valid d = true -> date.add_days d n = Some d' -> date.valid d' = true.
Proof.
  revert d. induction n as [|n IH]; intros d Hv Ha; simpl in Ha.
  - congruence.
  - destruct (date.tomorrow d) as [d1|] eqn:E; [|done].
    eapply IH; [|done]. by eapply tomorrow_valid.
Qed.

(** Year ends and leap days. *)
Example add_days_new_year :
  date.add_days (date.mk 2023 12 29) 3 = Some (date.mk 2024 1 1).
Proof. reflexivity. Qed.

Example add_days_leap_day :
  date.add_days (date.mk 2024 2 28) 1 = Some (date.mk 2024 2 29) /\
  date.add_days (date.mk 2023 2 28) 1 = Some (date.mk 2023 3 1).
Proof. split; reflexivity. Qed.

Example add_days_overflow :
  date.add_days (date.mk 9999 12 31) 1 = None.
Proof. reflexivity. Qed.

End calendar.

(** ** The store *)

Section store.

Lemma elem_of_query_Contact (c : Contact.t) (db : Session) :
  c ∈ query_Contact db <-> contacts db !! Contact.id c = Some (Contact.data c).
Proof.
  unfold query_Contact. rewrite list_elem_of_fmap. split.
  - intros [[k r] [-> Hin]]. simpl. by apply elem_of_map_to_list in Hin.
  - intros Hl. exists (Contact.id c, Contact.data c). split.
    + by destruct c.
    + by apply elem_of_map_to_list.
Qed.

Lemma elem_of_query_User (u : User.t) (db : Session) :
  u ∈ query_User db <-> users db !! User.id u = Some (User.data u).
Proof.
  unfold query_User. rewrite list_elem_of_fmap. split.
  - intros [[k r] [-> Hin]]. simpl. by apply elem_of_map_to_list in Hin.
  - intros Hl. exists (User.id u, User.data u). split.
    + by destruct u.
    + by apply elem_of_map_to_list.
Qed.

(** [.first()] after [.filter(P)]. *)
Lemma head_filter_Some {A} (P : A -> Prop) `{!forall x, Decision (P x)}
    (l : list A) (x : A) :
  head (filter P l) = Some x -> x ∈ l /\ P x.
Proof.
  intros Hhd. apply head_Some_elem_of in Hhd.
  apply list_elem_of_filter in Hhd. tauto.
Qed.

Lemma head_filter_None {A} (P : A -> Prop) `{!forall x, Decision (P x)}
    (l : list A) :
  head (filter P l) = None -> forall x, x ∈ l -> ~ P x.
Proof.
  intros Hhd x Hin HP.
  assert (Hx : x ∈ filter P l) by (apply list_elem_of_filter; done).
  destruct (filter P l); [by apply elem_of_nil in Hx | done].
Qed.

Lemma le_foldr_max (l : list Z) (k : Z) : k ∈ l -> k <= foldr Z.max 0 l.
Proof.
  induction l as [|a l IH]; intros Hin.
  - by apply elem_of_nil in Hin.
  - apply elem_of_cons in Hin as [-> | Hin]; simpl; [lia|].
    specialize (IH Hin). lia.
Qed.

(** The generated identifier is carried by no stored row. *)
Lemma generated_id_fresh {V} (table : gmap Z V) :
  table !! generated_id table = None.
Proof.
  destruct (table !! generated_id table) as [v|] eqn:E; [|done].
  exfalso. apply elem_of_map_to_list in E.
  assert (Hk : generated_id table ∈ (map_to_list table).*1).
  { apply list_elem_of_fmap. by exists (generated_id table, v). }
  apply le_foldr_max in Hk. unfold generated_id in Hk at 1. lia.
Qed.

Import repository_contacts.

(** What the shared query of [get_contact], [remove_contact] and
    [update_contact] finds, read off the table. *)
Lemma first_contact_lookup (contact_id : Z) (user : User.t) (db : Session) :
  first_contact contact_id user db =
  match contacts db !! contact_id with
  | Some r => if decide (Contact.user_id r = User.id user)
              then Some (Contact.mk contact_id r) else None
  | None => None
  end.
Proof.
  unfold first_contact.
  destruct (head _) as [c|] eqn:E.
  - apply head_filter_Some in E as [Hin [Hid Hown]].
    apply elem_of_query_Contact in Hin. subst contact_id.
    rewrite Hin. unfold owned_by in Hown.
    rewrite decide_True by done. by destruct c.
  - destruct (contacts db !! contact_id) as [r|] eqn:El; [|done].
    case_decide as Hown; [|done].
    exfalso.
    eapply (head_filter_None _ _ E (Contact.mk contact_id r)).
    + by apply elem_of_query_Contact.
    + done.
Qed.

Lemma first_contact_owned (contact_id : Z) (user : User.t) (db : Session)
    (c : Contact.t) :
  first_contact contact_id user db = Some c ->
  Contact.id c = contact_id /\ owned_by user c /\
  contacts db !! contact_id = Some (Contact.data c).
Proof.
  rewrite first_contact_lookup.
  destruct (contacts db !! contact_id) as [r|]; [|done].
  case_decide; [|done]. intros [= <-]. done.
Qed.

Lemma contacts_unique_violation_true (k : Z) (r : Contact.cols) (db : Session) :
  contacts_unique_violation k r db = true <->
  exists k' r', contacts db !! k' = Some r' /\ k' <> k /\
                (Contact.email r' = Contact.email r \/
                 Contact.phone r' = Contact.phone r).
Proof.
  unfold contacts_unique_violation. rewrite existsb_exists. split.
  - intros [c [Hin Hc]]. apply list_elem_of_In, elem_of_query_Contact in Hin.
    apply andb_true_iff in Hc as [Hk Hu].
    apply negb_true_iff, Z.eqb_neq in Hk.
    apply orb_true_iff in Hu. rewrite !String.eqb_eq in Hu.
    by exists (Contact.id c), (Contact.data c).
  - intros (k' & r' & Hl & Hk & Hu). exists (Contact.mk k' r'). split.
    + by apply list_elem_of_In, elem_of_query_Contact.
    + simpl. apply andb_true_iff. split.
      * by apply negb_true_iff, Z.eqb_neq.
      * apply orb_true_iff. by rewrite !String.eqb_eq.
Qed.

Lemma contacts_unique_violation_false (k : Z) (r : Contact.cols) (db : Session) :
  contacts_unique_violation k r db = false <->
  forall k' r', contacts db !! k' = Some r' -> k' <> k ->
                Contact.email r' <> Contact.email r /\
                Contact.phone r' <> Contact.phone r.
Proof.
  rewrite <- not_true_iff_false, contacts_unique_violation_true. split.
  - intros Hno k' r' Hl Hk. split; intros Heq; apply Hno; eauto 6.
  - intros Hall (k' & r' & Hl & Hk & Hu).
    destruct (Hall k' r' Hl Hk). tauto.
Qed.

Lemma users_unique_violation_true (k : Z) (r : User.cols) (db : Session) :
  users_unique_violation k r db = true <->
  exists k' r', users db !! k' = Some r' /\ k' <> k /\
                User.email r' = User.email r.
Proof.
  unfold users_unique_violation. rewrite existsb_exists. split.
  - intros [u [Hin Hu]]. apply list_elem_of_In, elem_of_query_User in Hin.
    apply andb_true_iff in Hu as [Hk He].
    apply negb_true_iff, Z.eqb_neq in Hk. apply String.eqb_eq in He.
    by exists (User.id u), (User.data u).
  - intros (k' & r' & Hl & Hk & He). exists (User.mk k' r'). split.
    + by apply list_elem_of_In, elem_of_query_User.
    + simpl. apply andb_true_iff. split.
      * by apply negb_true_iff, Z.eqb_neq.
      * by apply String.eqb_eq.
Qed.

Lemma users_unique_violation_false (k : Z) (r : User.cols) (db : Session) :
  users_unique_violation k r db = false <->
  forall k' r', users db !! k' = Some r' -> k' <> k ->
                User.email r' <> User.email r.
Proof.
  rewrite <- not_true_iff_false, users_unique_violation_true. split.
  - intros Hno k' r' Hl Hk Heq. apply Hno. eauto.
  - intros Hall (k' & r' & Hl & Hk & Hu). by apply (Hall k' r').
Qed.

(** A check against a key that no row carries looks at every row. *)
Lemma no_contact_conflict (k : Z) (r : Contact.cols) (db : Session) :
  contacts db !! k = None ->
  contacts_unique_violation k r db = false ->
  forall k' r', contacts db !! k' = Some r' ->
                Contact.email r' <> Contact.email r /\
                Contact.phone r' <> Contact.phone r.
Proof.
  intros Hk Hv k' r' Hl.
  apply (proj1 (contacts_unique_violation_false k r db) Hv k' r' Hl).
  congruence.
Qed.

Lemma no_user_conflict (k : Z) (r : User.cols) (db : Session) :
  users db !! k = None ->
  users_unique_violation k r db = false ->
  forall k' r', users db !! k' = Some r' -> User.email r' <> User.email r.
Proof.
  intros Hk Hv k' r' Hl.
  apply (proj1 (users_unique_violation_false k r db) Hv k' r' Hl).
  congruence.
Qed.

End store.

(** ** [LIKE] against literal search texts *)

Section like.

Lemma like_match_percent (p s : string) :
  like_match (String "%" p) s =
  like_match p s ||
  match s with
  | EmptyString => false
  | String _ s' => like_match (String "%" p) s'
  end.
Proof. by destruct s. Qed.

Lemma like_match_percent_only (s : string) : like_match "%" s = true.
Proof.
  induction s as [|a s IH]; [done|].
  rewrite like_match_percent, IH. apply orb_true_r.
Qed.

Lemma like_match_plain_char (a : ascii) (p s : string) :
  is_wildcard a = false ->
  like_match (String a p) s =
  match s with
  | EmptyString => false
  | String c s' => Ascii.eqb a c && like_match p s'
  end.
Proof.
  unfold is_wildcard. intros Ha.
  apply orb_false_iff in Ha as [Ha H3]. apply orb_false_iff in Ha as [H1 H2].
  simpl. by rewrite H1, H2, H3.
Qed.

Lemma like_match_plain_prefix (sub s : string) :
  plain sub = true ->
  like_match (sub ++ "%") s = starts_with sub s.
Proof.
  revert s. induction sub as [|a sub IH]; intros s Hp.
  - apply like_match_percent_only.
  - simpl in Hp. apply andb_true_iff in Hp as [Ha Hp].
    apply negb_true_iff in Ha.
    change (String a sub ++ "%") with (String a (sub ++ "%")).
    rewrite like_match_plain_char by done.
    destruct s as [|c s]; [done|]. simpl. by rewrite IH.
Qed.

(** For a search text free of [%], [_] and the backslash, the pattern of
    the repository selects exactly the strings that contain the text. *)
Theorem like_pattern_plain (sub s : string) :
  plain sub = true ->
  like_match (repository_contacts.like_pattern sub) s = contains sub s.
Proof.
  intros Hp. unfold repository_contacts.like_pattern.
  change ("%" ++ sub ++ "%") with (String "%" (sub ++ "%")).
  induction s as [|c s IH].
  - rewrite like_match_percent, like_match_plain_prefix by done.
    simpl. done.
  - rewrite like_match_percent, like_match_plain_prefix, IH by done.
    done.
Qed.

Lemma starts_with_spec (sub s : string) :
  starts_with sub s = true <-> exists post, s = sub ++ post.
Proof.
  revert s. induction sub as [|a sub IH]; intros s.
  - split; [|done]. intros _. by exists s.
  - destruct s as [|c s]; simpl.
    + split; [done|]. intros [post Hpost]. done.
    + rewrite andb_true_iff, Ascii.eqb_eq, IH. split.
      * intros [-> [post ->]]. by exists post.
      * intros [post [= -> ->]]. eauto.
Qed.

(** [contains] is the literal substring relation. *)
Lemma contains_spec (sub s : string) :
  contains sub s = true <-> exists pre post, s = pre ++ sub ++ post.
Proof.
  induction s as [|c s IH].
  - simpl. rewrite orb_false_r, starts_with_spec. split.
    + intros [post ->]. by exists "", post.
    + intros [pre [post Heq]]. destruct pre; [by exists post|done].
  - simpl. rewrite orb_true_iff, starts_with_spec, IH. split.
    + intros [[post ->] | (pre & post & ->)].
      * by exists "", post.
      * by exists (String c pre), post.
    + intros [pre [post Heq]]. destruct pre as [|a pre].
      * left. by exists post.
      * right. injection Heq as -> ->. by exists pre, post.
Qed.

End like.

(** ** Contacts: ownership, absent results, conflicts *)

Section contacts_repository.

Import repository_contacts.

Lemma not_owned_by_other (A B : User.t) (c : Contact.t) :
  owned_by A c -> User.id B <> User.id A -> ~ owned_by B c.
Proof. unfold owned_by. congruence. Qed.

(** The row that a user's query finds is never a row of somebody else. *)
Lemma first_contact_other_key (A B : User.t) (C1 c : Contact.t)
    (contact_id : Z) (db : Session) :
  contacts db !! Contact.id C1 = Some (Contact.data C1) ->
  owned_by A C1 ->
  User.id B <> User.id A ->
  first_contact contact_id B db = Some c ->
  Contact.id c <> Contact.id C1 /\ c <> C1.
Proof.
  intros Hstored HA HB Hc.
  apply first_contact_owned in Hc as (Hid & Hown & Hl).
  assert (Hne : c <> C1).
  { intros ->. by apply (not_owned_by_other A B C1). }
  split; [|done]. intros Heq. apply Hne.
  rewrite <- Hid, Heq, Hstored in Hl.
  destruct c, C1; simpl in *; congruence.
Qed.

(** A search returns its rows without touching the store, and every row
    it returns passed the owner filter. *)
Ltac search_excludes :=
  let s := fresh "s" in
  let Hin := fresh "Hin" in
  intros s; eexists; split; [reflexivity|];
  intros Hin; apply list_elem_of_filter in Hin; tauto.

(** C2: a contact [C1] stored for user [A] is never returned to another
    user [B] by list, get or the three searches, and is still stored,
    unchanged, after any update or delete issued by [B]. *)
Theorem contacts_scoped_by_owner (A B : User.t) (C1 : Contact.t)
    (db : Session) :
  contacts db !! Contact.id C1 = Some (Contact.data C1) ->
  owned_by A C1 ->
  User.id B <> User.id A ->
  (forall position skip limit, exists o,
      get_contacts position skip limit B db = (o, db) /\
      forall l, o = Ok l -> C1 ∉ l) /\
  (forall contact_id, exists r,
      get_contact contact_id B db = (Ok r, db) /\ r <> Some C1) /\
  (forall s, exists l, get_contacts_name s B db = (Ok l, db) /\ (C1 ∉ l)) /\
  (forall s, exists l, get_contacts_surname s B db = (Ok l, db) /\ (C1 ∉ l)) /\
  (forall s, exists l, get_contacts_email s B db = (Ok l, db) /\ (C1 ∉ l)) /\
  (forall contact_id body, exists o db',
      update_contact contact_id body B db = (o, db') /\
      o <> Ok (Some C1) /\
      contacts db' !! Contact.id C1 = Some (Contact.data C1)) /\
  (forall contact_id, exists o db',
      remove_contact contact_id B db = (o, db') /\
      o <> Ok (Some C1) /\
      contacts db' !! Contact.id C1 = Some (Contact.data C1)).
Proof.
  intros Hstored HA HB.
  pose proof (not_owned_by_other A B C1 HA HB) as HnB.
  split; [|split; [|split; [|split; [|split; [|split]]]]].
  - intros position skip limit. unfold get_contacts.
    destruct (_ || _); eexists; (split; [reflexivity|]); [done|].
    intros l [= <-] Hin.
    apply subseteq_take, subseteq_drop, list_elem_of_filter in Hin. tauto.
  - intros contact_id. eexists. split; [reflexivity|].
    intros Hc.
    by destruct (first_contact_other_key A B C1 C1 contact_id db).
  - search_excludes.
  - search_excludes.
  - search_excludes.
  - intros contact_id body. unfold update_contact.
    destruct (first_contact contact_id B db) as [c|] eqn:E;
      [|by do 2 eexists].
    destruct (first_contact_other_key A B C1 c contact_id db) as [Hk _];
      try done.
    destruct (contacts_unique_violation _ _ _); [by do 2 eexists|].
    do 2 eexists. split; [reflexivity|]. split.
    + intros [= Heq]. by rewrite <- Heq in Hk.
    + simpl. by rewrite lookup_insert_ne.
  - intros contact_id. unfold remove_contact.
    destruct (first_contact contact_id B db) as [c|] eqn:E;
      [|by do 2 eexists].
    destruct (first_contact_other_key A B C1 c contact_id db) as [Hk Hc];
      try done.
    do 2 eexists. split; [reflexivity|]. split.
    + congruence.
    + simpl. by rewrite lookup_delete_ne.
Qed.

(** C3: for an id that is not stored, or that is stored for another
    user, get, update and delete return [None] without raising, and the
    store is left as it was. *)
Theorem absent_or_foreign_contact_is_none (contact_id : Z) (user : User.t)
    (db : Session) :
  (contacts db !! contact_id = None \/
   exists r, contacts db !! contact_id = Some r /\
             Contact.user_id r <> User.id user) ->
  get_contact contact_id user db = (Ok None, db) /\
  (forall body, update_contact contact_id body user db = (Ok None, db)) /\
  remove_contact contact_id user db = (Ok None, db).
Proof.
  intros Habsent.
  assert (Hnone : first_contact contact_id user db = None).
  { rewrite first_contact_lookup.
    destruct Habsent as [-> | (r & -> & Hr)]; [done|].
    by rewrite decide_False. }
  unfold get_contact, update_contact, remove_contact.
  by rewrite Hnone.
Qed.

(** C4: creating a contact whose email or phone is already held by a
    stored contact, whoever owns it, raises the uniqueness violation,
    and the stored contact is still there, unchanged, afterwards. *)
Theorem create_contact_conflict (body : ContactModel.t) (user : User.t)
    (db : Session) (k : Z) (r : Contact.cols) :
  contacts db !! k = Some r ->
  (Contact.email r = ContactModel.email body \/
   Contact.phone r = ContactModel.phone body) ->
  create_contact body user db = (Raise IntegrityError, db) /\
  contacts (create_contact body user db).2 !! k = Some r.
Proof.
  intros Hstored Hsame.
  assert (Hv : contacts_unique_violation (generated_id (contacts db))
                 (row_of body (User.id user)) db = true).
  { apply contacts_unique_violation_true. exists k, r.
    split; [done|]. split; [|done].
    intros ->. by rewrite generated_id_fresh in Hstored. }
  unfold create_contact. simpl. rewrite Hv. done.
Qed.

(** Whatever an update does, the row keeps its key and its owner. *)
Lemma update_contact_keeps_owner (contact_id : Z) (body : ContactUpdate.t)
    (user : User.t) (db : Session) (r : Contact.cols) :
  contacts db !! contact_id = Some r ->
  exists o db' r',
    update_contact contact_id body user db = (o, db') /\
    contacts db' !! contact_id = Some r' /\
    Contact.user_id r' = Contact.user_id r.
Proof.
  intros Hstored. unfold update_contact.
  rewrite first_contact_lookup, Hstored.
  case_decide; [|by do 3 eexists]. simpl.
  destruct (contacts_unique_violation _ _ _); [by do 3 eexists|].
  do 3 eexists. split; [reflexivity|]. simpl.
  by rewrite lookup_insert_eq.
Qed.

(** C8 (as amended): when the owner updates a stored contact and no
    other stored contact holds the new email or phone, the six data
    fields are overwritten with the given values, the id and the owning
    user are kept, and nothing else in the store changes.  When another
    stored contact holds the new email or phone, the commit raises the
    uniqueness violation and the stored contact keeps its fields. *)
Theorem update_contact_overwrites (contact_id : Z) (body : ContactUpdate.t)
    (user : User.t) (db : Session) (r : Contact.cols) :
  contacts db !! contact_id = Some r ->
  Contact.user_id r = User.id user ->
  ((forall k' r', contacts db !! k' = Some r' -> k' <> contact_id ->
                  Contact.email r' <> ContactUpdate.email body /\
                  Contact.phone r' <> ContactUpdate.phone body) ->
   exists c db',
     update_contact contact_id body user db = (Ok (Some c), db') /\
     contacts db' = <[contact_id := Contact.data c]> (contacts db) /\
     users db' = users db /\
     Contact.name (Contact.data c) = ContactUpdate.name body /\
     Contact.surname (Contact.data c) = ContactUpdate.surname body /\
     Contact.email (Contact.data c) = ContactUpdate.email body /\
     Contact.phone (Contact.data c) = ContactUpdate.phone body /\
     Contact.birthday (Contact.data c) = ContactUpdate.birthday body /\
     Contact.description (Contact.data c) =
       Some (ContactUpdate.description body) /\
     Contact.id c = contact_id /\
     Contact.user_id (Contact.data c) = Contact.user_id r) /\
  ((exists k' r', contacts db !! k' = Some r' /\ k' <> contact_id /\
                  (Contact.email r' = ContactUpdate.email body \/
                   Contact.phone r' = ContactUpdate.phone body)) ->
   update_contact contact_id body user db = (Raise IntegrityError, db) /\
   contacts (update_contact contact_id body user db).2 !! contact_id = Some r).
Proof.
  intros Hstored Hown.
  unfold update_contact. rewrite first_contact_lookup, Hstored.
  rewrite decide_True by done. simpl. split.
  - intros Hfree.
    assert (Hv : contacts_unique_violation contact_id
                   (row_of body (Contact.user_id r)) db = false).
    { by apply contacts_unique_violation_false. }
    rewrite Hv. do 2 eexists. split; [reflexivity|]. done.
  - intros Hclash.
    assert (Hv : contacts_unique_violation contact_id
                   (row_of body (Contact.user_id r)) db = true).
    { by apply contacts_unique_violation_true. }
    by rewrite Hv.
Qed.

(** C9 (as amended): a body whose email and phone no stored contact
    holds is created under a generated id that no stored row carried; the same user then gets back a contact
    with exactly the fields of the body; after deleting that id, getting
    it again returns [None]. *)
Theorem create_get_remove_get (body : ContactModel.t) (user : User.t)
    (db : Session) :
  (forall k r, contacts db !! k = Some r ->
               Contact.email r <> ContactModel.email body /\
               Contact.phone r <> ContactModel.phone body) ->
  exists c db1 db2,
    create_contact body user db = (Ok c, db1) /\
    contacts db !! Contact.id c = None /\
    get_contact (Contact.id c) user db1 = (Ok (Some c), db1) /\
    Contact.name (Contact.data c) = ContactModel.name body /\
    Contact.surname (Contact.data c) = ContactModel.surname body /\
    Contact.email (Contact.data c) = ContactModel.email body /\
    Contact.phone (Contact.data c) = ContactModel.phone body /\
    Contact.birthday (Contact.data c) = ContactModel.birthday body /\
    Contact.description (Contact.data c) =
      Some (ContactModel.description body) /\
    remove_contact (Contact.id c) user db1 = (Ok (Some c), db2) /\
    get_contact (Contact.id c) user db2 = (Ok None, db2).
Proof.
  intros Hfree.
  assert (Hv : contacts_unique_violation (generated_id (contacts db))
                 (row_of body (User.id user)) db = false).
  { apply contacts_unique_violation_false. intros k r Hl _. eauto. }
  unfold create_contact. simpl. rewrite Hv.
  do 3 eexists. split; [reflexivity|]. simpl.
  split; [apply generated_id_fresh|].
  assert (Hget : first_contact (generated_id (contacts db)) user
            (set_contacts db (<[generated_id (contacts db) :=
                row_of body (User.id user)]> (contacts db))) =
          Some (Contact.mk (generated_id (contacts db))
                  (row_of body (User.id user)))).
  { rewrite first_contact_lookup. simpl. rewrite lookup_insert_eq.
    by rewrite decide_True. }
  unfold get_contact, remove_contact. rewrite Hget. simpl.
  do 7 (split; [done|]). split; [reflexivity|].
  rewrite first_contact_lookup. simpl. by rewrite lookup_delete_eq.
Qed.

End contacts_repository.

(** ** Users: lookup by email, signup, confirmation, avatar *)

Section users_repository.

Import repository_users.

Lemma first_user_Some (email : string) (db : Session) (u : User.t) :
  first_user email db = Some u ->
  users db !! User.id u = Some (User.data u) /\
  User.email (User.data u) = email.
Proof.
  intros Hhd. apply head_filter_Some in Hhd as [Hin He].
  by apply elem_of_query_User in Hin.
Qed.

Lemma first_user_None (email : string) (db : Session) :
  first_user email db = None <->
  forall k r, users db !! k = Some r -> User.email r <> email.
Proof.
  split.
  - intros Hhd k r Hl He.
    eapply (head_filter_None _ _ Hhd (User.mk k r)); [|done].
    by apply elem_of_query_User.
  - intros Hno. destruct (first_user email db) as [u|] eqn:E; [|done].
    apply first_user_Some in E as [Hl He]. by destruct (Hno _ _ Hl).
Qed.

(** The only exception [create_user] can raise is the uniqueness
    violation of the commit; what the gravatar lookup raised is never
    passed on. *)
Lemma create_user_outcomes (gravatar : string -> gravatar_outcome) (now : Z)
    (body : UserModel.t) (db : Session) :
  create_user gravatar now body db = (Raise IntegrityError, db) \/
  exists user db', create_user gravatar now body db = (Ok user, db').
Proof.
  unfold create_user. simpl.
  destruct (users_unique_violation _ _ _); [by left|].
  right. by do 2 eexists.
Qed.

(** C7 (as amended): when no stored user holds the email of the body,
    [create_user] inserts the new user under a fresh id and returns it,
    whatever the gravatar lookup does: a failed lookup leaves the avatar
    null, a successful one stores the resolved URL.  When a stored user
    holds the email, the commit raises the uniqueness violation and
    nothing is inserted, again whatever the lookup does. *)
Theorem create_user_swallows_gravatar_failure
    (gravatar : string -> gravatar_outcome) (now : Z) (body : UserModel.t)
    (db : Session) :
  ((forall k r, users db !! k = Some r ->
                User.email r <> UserModel.email body) ->
   exists user db',
     create_user gravatar now body db = (Ok user, db') /\
     users db !! User.id user = None /\
     users db' = <[User.id user := User.data user]> (users db) /\
     contacts db' = contacts db /\
     User.username (User.data user) = UserModel.username body /\
     User.email (User.data user) = UserModel.email body /\
     User.password (User.data user) = UserModel.password body /\
     (forall message, gravatar (UserModel.email body) = Failed message ->
                      User.avatar (User.data user) = None) /\
     (forall url, gravatar (UserModel.email body) = Resolved url ->
                  User.avatar (User.data user) = Some url)) /\
  ((exists k r, users db !! k = Some r /\
                User.email r = UserModel.email body) ->
   create_user gravatar now body db = (Raise IntegrityError, db) /\
   users (create_user gravatar now body db).2 = users db).
Proof.
  split.
  - intros Hfree. unfold create_user. simpl.
    set (row := new_user body _ now).
    assert (Hv : users_unique_violation (generated_id (users db)) row db
                 = false).
    { apply users_unique_violation_false. intros k r Hl _.
      by apply (Hfree k r). }
    rewrite Hv. do 2 eexists. split; [reflexivity|]. simpl.
    split; [apply generated_id_fresh|].
    repeat split; unfold resolve_avatar; intros x Hx; by rewrite Hx.
  - intros (k & r & Hstored & Hsame). unfold create_user. simpl.
    set (row := new_user body _ now).
    assert (Hv : users_unique_violation (generated_id (users db)) row db
                 = true).
    { apply users_unique_violation_true. exists k, r.
      split; [done|]. split; [|done].
      intros ->. by rewrite generated_id_fresh in Hstored. }
    by rewrite Hv.
Qed.

(** C10: with no stored user for the email, the lookup returns [None]
    and both [confirmed_email] and [update_avatar] raise on the absent
    result, leaving the store as it was; with a stored user for the
    email neither raises: the found user is marked confirmed, resp.
    gets the new avatar and is returned. *)
Theorem confirmed_email_update_avatar_need_user (email url : string)
    (db : Session) :
  ((forall k r, users db !! k = Some r -> User.email r <> email) ->
   get_user_by_email email db = (Ok None, db) /\
   confirmed_email email db = (Raise AttributeError, db) /\
   update_avatar email url db = (Raise AttributeError, db)) /\
  ((exists k r, users db !! k = Some r /\ User.email r = email) ->
   exists user,
     get_user_by_email email db = (Ok (Some user), db) /\
     users db !! User.id user = Some (User.data user) /\
     User.email (User.data user) = email /\
     confirmed_email email db =
       (Ok tt,
        set_users db
          (<[User.id user := set_confirmed (User.data user) true]>
             (users db))) /\
     update_avatar email url db =
       (Ok (User.mk (User.id user) (set_avatar (User.data user) (Some url))),
        set_users db
          (<[User.id user := set_avatar (User.data user) (Some url)]>
             (users db)))).
Proof.
  split.
  - intros Hno. apply first_user_None in Hno.
    unfold confirmed_email, update_avatar, bind, get_user_by_email.
    by rewrite Hno.
  - intros (k & r & Hl & He).
    destruct (first_user email db) as [user|] eqn:E.
    + exists user. apply first_user_Some in E as Hu. destruct Hu as [Hu1 Hu2].
      unfold confirmed_email, update_avatar, bind, get_user_by_email.
      by rewrite E.
    + exfalso. by eapply first_user_None in E.
Qed.

End users_repository.

(** ** Upcoming birthdays *)

Section birthdays.

Import repository_contacts Examples.

Lemma birthday_days_lookup (today : date.t) (days : list string) (i : nat)
    (d : date.t) :
  birthday_days today = Some days ->
  (i < 7)%nat ->
  date.add_days today i = Some d ->
  day_month_key d ∈ days.
Proof.
  unfold birthday_days. intros Hdays Hi Hd.
  apply mapM_Some in Hdays.
  assert (Hl : seq 0 7 !! i = Some i) by (apply lookup_seq; lia).
  destruct (Forall2_lookup_l _ _ _ _ _ Hdays Hl) as (k & Hk & Hf).
  rewrite Hd in Hf. simpl in Hf. injection Hf as <-.
  by eapply list_elem_of_lookup_2.
Qed.

Lemma birthday_days_elem (today : date.t) (days : list string) (key : string) :
  birthday_days today = Some days ->
  key ∈ days ->
  exists i d, (i < 7)%nat /\ date.add_days today i = Some d /\
              day_month_key d = key.
Proof.
  unfold birthday_days. intros Hdays Hin.
  apply mapM_Some in Hdays.
  apply list_elem_of_lookup in Hin as [j Hj].
  destruct (Forall2_lookup_r _ _ _ _ _ Hdays Hj) as (i & Hi & Hf).
  apply lookup_seq in Hi as [-> Hlt]. simpl in Hf.
  destruct (date.add_days today j) as [d|] eqn:Hd; [|done].
  simpl in Hf. injection Hf as <-. exists j, d.
  split; [lia|]. by split.
Qed.

(** What the function returns: the user's contacts whose key is the key
    of one of the seven days. *)
Theorem get_contacts_birthday_by_key (today : date.t) (user : User.t)
    (db : Session) (days : list string) (c : Contact.t) :
  birthday_days today = Some days ->
  exists l,
    get_contacts_birthday today user db = (Ok l, db) /\
    (c ∈ l <->
     contacts db !! Contact.id c = Some (Contact.data c) /\
     owned_by user c /\
     exists i d, (i < 7)%nat /\ date.add_days today i = Some d /\
                 day_month_key d =
                 day_month_key (Contact.birthday (Contact.data c))).
Proof.
  intros Hdays. unfold get_contacts_birthday. rewrite Hdays.
  eexists. split; [reflexivity|].
  rewrite list_elem_of_filter, elem_of_query_Contact. split.
  - intros [[Hkey Hown] Hstored]. split; [done|]. split; [done|].
    by apply (birthday_days_elem today days).
  - intros (Hstored & Hown & i & d & Hi & Hd & Hkey).
    split; [|done]. split; [|done]. rewrite <- Hkey.
    by apply (birthday_days_lookup today days i d).
Qed.

(** Every contact of the user whose birthday falls in the window is
    returned. *)
Theorem get_contacts_birthday_complete (today : date.t) (user : User.t)
    (db : Session) (days : list string) (c : Contact.t) :
  birthday_days today = Some days ->
  contacts db !! Contact.id c = Some (Contact.data c) ->
  owned_by user c ->
  in_next_seven_days today (Contact.birthday (Contact.data c)) = true ->
  exists l, get_contacts_birthday today user db = (Ok l, db) /\ c ∈ l.
Proof.
  intros Hdays Hstored Hown Hwin.
  unfold get_contacts_birthday. rewrite Hdays.
  eexists. split; [reflexivity|].
  apply list_elem_of_filter. split; [|by apply elem_of_query_Contact].
  split; [|done].
  apply existsb_exists in Hwin as (i & Hi & Hm).
  apply in_seq in Hi.
  destruct (date.add_days today i) as [d'|] eqn:Hd; [|done].
  apply andb_true_iff in Hm as [Hday Hmonth].
  apply Z.eqb_eq in Hday, Hmonth.
  unfold day_month_key at 1. rewrite <- Hday, <- Hmonth.
  apply (birthday_days_lookup today days i d'); [done|lia|done].
Qed.

(** C1 (the code departs from the claim): on 1 December the key of the
    day, "1" followed by "12", is also the key of 11 February, "11"
    followed by "2"; a contact born on 11 February is returned although
    no day of the window 1-7 December has that day and month. *)
Theorem get_contacts_birthday_key_collision :
  day_month_key dec1 = "112" /\
  day_month_key (Contact.birthday feb11) = "112" /\
  get_contacts_birthday dec1 alice db_one = (Ok [Contact.mk 1 feb11], db_one) /\
  in_next_seven_days dec1 (Contact.birthday feb11) = false.
Proof. repeat split; vm_compute; reflexivity. Qed.

End birthdays.

(** ** Searches: the repository and the route *)

Section searches.

Import repository_contacts routes_contacts Examples.



(** C6 (the code departs from the claim): the search text "_" is read
    as the one-character wildcard, so the contact named "Bob" is
    returned although its name does not contain an underscore; "%"
    likewise matches every name. *)
Theorem get_contacts_name_wildcard :
  get_contacts_name "_" alice db_one = (Ok [Contact.mk 1 feb11], db_one) /\
  contains "_" (Contact.name feb11) = false /\
  get_contacts_name "%" alice db_one = (Ok [Contact.mk 1 feb11], db_one) /\
  contains "%" (Contact.name feb11) = false.
Proof. repeat split; vm_compute; reflexivity. Qed.

(** Apart from the wildcard characters the searches are the literal,
    case-sensitive substring searches over the user's own contacts. *)
Theorem get_contacts_name_plain (s : string) (user : User.t) (db : Session)
    (c : Contact.t) :
  plain s = true ->
  exists l,
    get_contacts_name s user db = (Ok l, db) /\
    (c ∈ l <->
     contacts db !! Contact.id c = Some (Contact.data c) /\
     owned_by user c /\
     contains s (Contact.name (Contact.data c)) = true).
Proof.
  intros Hp. eexists. split; [reflexivity|].
  rewrite list_elem_of_filter, elem_of_query_Contact, like_pattern_plain by done.
  tauto.
Qed.

End searches.

(** ** Worked instances *)

Section instances.

Import repository_contacts repository_users Examples.

(** C7 as stated fails: the signup of a second user with the email of a
    stored user raises the uniqueness violation and inserts nothing,
    although the gravatar lookup succeeded. *)
Lemma create_user_duplicate_email :
  create_user gravatar_up 0 bob_again db_two = (Raise IntegrityError, db_two) /\
  ~ (exists user db', create_user gravatar_up 0 bob_again db_two = (Ok user, db')).
Proof.
  assert (Hrun : create_user gravatar_up 0 bob_again db_two =
                 (Raise IntegrityError, db_two)) by (vm_compute; reflexivity).
  split; [done|]. intros (user & db' & Hok). congruence.
Qed.

(** C8 as stated fails: the owner's update of contact 2 with the email
    of contact 1 raises the uniqueness violation, and contact 2 keeps
    the fields it had. *)
Lemma update_contact_duplicate_email :
  contacts db_two !! 2 = Some may15 /\
  Contact.user_id may15 = User.id alice /\
  update_contact 2 same_email alice db_two = (Raise IntegrityError, db_two) /\
  contacts (update_contact 2 same_email alice db_two).2 !! 2 = Some may15 /\
  Contact.email may15 <> ContactUpdate.email same_email.
Proof.
  split; [|split; [|split; [|split]]].
  - vm_compute. reflexivity.
  - reflexivity.
  - vm_compute. reflexivity.
  - vm_compute. reflexivity.
  - vm_compute. discriminate.
Qed.

(** C9 as stated fails: a body that satisfies the schema but carries the
    email of a stored contact is not created; the commit raises the
    uniqueness violation and no contact is returned. *)
Lemma create_contact_valid_body_refused :
  ContactModel.valid same_email = true /\
  create_contact same_email alice db_one = (Raise IntegrityError, db_one) /\
  ~ (exists c db', create_contact same_email alice db_one = (Ok c, db')).
Proof.
  assert (Hrun : create_contact same_email alice db_one =
                 (Raise IntegrityError, db_one)) by (vm_compute; reflexivity).
  split; [vm_compute; reflexivity|]. split; [done|].
  intros (c & db' & Hok). congruence.
Qed.

Lemma contacts_scoped_by_owner_witness :
  contacts db_two !! 1 = Some feb11 /\
  owned_by alice (Contact.mk 1 feb11) /\
  User.id bob <> User.id alice /\
  (forall contact_id, exists r,
      get_contact contact_id bob db_two = (Ok r, db_two) /\
      r <> Some (Contact.mk 1 feb11)).
Proof.
  assert (H1 : contacts db_two !! Contact.id (Contact.mk 1 feb11) =
               Some (Contact.data (Contact.mk 1 feb11)))
    by (vm_compute; reflexivity).
  assert (H2 : owned_by alice (Contact.mk 1 feb11)) by reflexivity.
  assert (H3 : User.id bob <> User.id alice) by (vm_compute; discriminate).
  split; [exact H1|]. split; [exact H2|]. split; [exact H3|].
  exact (proj1 (proj2
    (contacts_scoped_by_owner alice bob (Contact.mk 1 feb11) db_two H1 H2 H3))).
Defined.

Lemma absent_or_foreign_contact_is_none_witness :
  (contacts db_two !! 1 = Some feb11 /\ Contact.user_id feb11 <> User.id bob) /\
  get_contact 1 bob db_two = (Ok None, db_two) /\
  (forall body, update_contact 1 body bob db_two = (Ok None, db_two)) /\
  remove_contact 1 bob db_two = (Ok None, db_two).
Proof.
  assert (H1 : contacts db_two !! 1 = Some feb11) by (vm_compute; reflexivity).
  assert (H2 : Contact.user_id feb11 <> User.id bob)
    by (vm_compute; discriminate).
  split; [exact (conj H1 H2)|].
  apply (absent_or_foreign_contact_is_none 1 bob db_two).
  right. exists feb11. exact (conj H1 H2).
Defined.

Lemma create_contact_conflict_witness :
  contacts db_one !! 1 = Some feb11 /\
  Contact.email feb11 = ContactModel.email same_email /\
  create_contact same_email bob db_one = (Raise IntegrityError, db_one) /\
  contacts (create_contact same_email bob db_one).2 !! 1 = Some feb11.
Proof.
  assert (H1 : contacts db_one !! 1 = Some feb11) by (vm_compute; reflexivity).
  assert (H2 : Contact.email feb11 = ContactModel.email same_email)
    by reflexivity.
  split; [exact H1|]. split; [exact H2|].
  exact (create_contact_conflict same_email bob db_one 1 feb11 H1 (or_introl H2)).
Defined.

Lemma update_contact_overwrites_witness :
  contacts db_two !! 1 = Some feb11 /\
  Contact.user_id feb11 = User.id alice /\
  (forall k' r', contacts db_two !! k' = Some r' -> k' <> 1 ->
                 Contact.email r' <> ContactUpdate.email new_contact /\
                 Contact.phone r' <> ContactUpdate.phone new_contact) /\
  exists c db',
    update_contact 1 new_contact alice db_two = (Ok (Some c), db') /\
    contacts db' = <[1 := Contact.data c]> (contacts db_two) /\
    Contact.email (Contact.data c) = "ann@example.com" /\
    Contact.id c = 1 /\
    Contact.user_id (Contact.data c) = 1 /\
    update_contact 2 same_phone alice db_two = (Raise IntegrityError, db_two).
Proof.
  assert (H1 : contacts db_two !! 1 = Some feb11) by (vm_compute; reflexivity).
  assert (H2 : Contact.user_id feb11 = User.id alice) by reflexivity.
  assert (H3 : forall k' r', contacts db_two !! k' = Some r' -> k' <> 1 ->
                 Contact.email r' <> ContactUpdate.email new_contact /\
                 Contact.phone r' <> ContactUpdate.phone new_contact).
  { apply (proj1 (contacts_unique_violation_false 1
                    (row_of new_contact 1) db_two)).
    vm_compute. reflexivity. }
  split; [exact H1|]. split; [exact H2|]. split; [exact H3|].
  destruct (proj1 (update_contact_overwrites 1 new_contact alice db_two feb11
                     H1 H2) H3)
    as (c & db' & Hrun & Hdb & _ & _ & _ & He & _ & _ & _ & Hid & Hu).
  exists c, db'.
  split; [exact Hrun|]. split; [exact Hdb|]. split; [exact He|].
  split; [exact Hid|]. split; [exact Hu|].
  assert (H4 : contacts db_two !! 2 = Some may15) by (vm_compute; reflexivity).
  apply (proj2 (update_contact_overwrites 2 same_phone alice db_two may15
                  H4 eq_refl)).
  exists 1, feb11. split; [exact H1|]. split; [discriminate|].
  right. reflexivity.
Defined.

Lemma create_get_remove_get_witness :
  (forall k r, contacts db_two !! k = Some r ->
               Contact.email r <> ContactModel.email new_contact /\
               Contact.phone r <> ContactModel.phone new_contact) /\
  exists c db1 db2,
    create_contact new_contact alice db_two = (Ok c, db1) /\
    Contact.name (Contact.data c) = "Ann" /\
    get_contact (Contact.id c) alice db1 = (Ok (Some c), db1) /\
    remove_contact (Contact.id c) alice db1 = (Ok (Some c), db2) /\
    get_contact (Contact.id c) alice db2 = (Ok None, db2).
Proof.
  assert (H1 : forall k r, contacts db_two !! k = Some r ->
                 Contact.email r <> ContactModel.email new_contact /\
                 Contact.phone r <> ContactModel.phone new_contact).
  { apply (no_contact_conflict 0 (row_of new_contact 1) db_two).
    - vm_compute. reflexivity.
    - vm_compute. reflexivity. }
  split; [exact H1|].
  destruct (create_get_remove_get new_contact alice db_two H1)
    as (c & db1 & db2 & Hc & _ & Hg & Hn & _ & _ & _ & _ & _ & Hr & Hg').
  exists c, db1, db2. repeat split; assumption.
Defined.

Lemma create_user_swallows_gravatar_failure_witness :
  (forall k r, users db_two !! k = Some r ->
               User.email r <> UserModel.email carol) /\
  gravatar_down (UserModel.email carol) = Failed "Gravatar error" /\
  exists user db',
    create_user gravatar_down 0 carol db_two = (Ok user, db') /\
    users db' = <[User.id user := User.data user]> (users db_two) /\
    User.email (User.data user) = "carol@example.com" /\
    User.avatar (User.data user) = None /\
    create_user gravatar_down 0 bob_again db_two =
      (Raise IntegrityError, db_two).
Proof.
  assert (H1 : forall k r, users db_two !! k = Some r ->
                 User.email r <> UserModel.email carol).
  { apply (no_user_conflict 0 (new_user carol None 0) db_two).
    - vm_compute. reflexivity.
    - vm_compute. reflexivity. }
  assert (H2 : gravatar_down (UserModel.email carol) = Failed "Gravatar error")
    by reflexivity.
  split; [exact H1|]. split; [exact H2|].
  destruct (proj1 (create_user_swallows_gravatar_failure gravatar_down 0 carol
                     db_two) H1)
    as (user & db' & Hrun & _ & Hdb & _ & _ & He & _ & Hfail & _).
  exists user, db'.
  split; [exact Hrun|]. split; [exact Hdb|]. split; [exact He|].
  split; [exact (Hfail _ H2)|].
  apply (proj2 (create_user_swallows_gravatar_failure gravatar_down 0
                  bob_again db_two)).
  exists 2, (User.data bob). split; [vm_compute; reflexivity | reflexivity].
Defined.

Lemma confirmed_email_update_avatar_need_user_witness :
  ((forall k r, users db_one !! k = Some r ->
                User.email r <> "bob@example.com") /\
   confirmed_email "bob@example.com" db_one = (Raise AttributeError, db_one) /\
   update_avatar "bob@example.com" "https://img.example.com/b.png" db_one =
     (Raise AttributeError, db_one)) /\
  (users db_two !! 2 = Some (User.data bob) /\
   exists user,
     get_user_by_email "bob@example.com" db_two = (Ok (Some user), db_two) /\
     confirmed_email "bob@example.com" db_two =
       (Ok tt,
        set_users db_two
          (<[User.id user := set_confirmed (User.data user) true]>
             (users db_two)))).
Proof.
  assert (H1 : forall k r, users db_one !! k = Some r ->
                 User.email r <> "bob@example.com").
  { intros k r Hl. exfalso.
    change (users db_one) with (∅ : gmap Z User.cols) in Hl.
    rewrite lookup_empty in Hl. discriminate Hl. }
  assert (H2 : users db_two !! 2 = Some (User.data bob))
    by (vm_compute; reflexivity).
  split.
  - split; [exact H1|].
    exact (proj2 (proj1 (confirmed_email_update_avatar_need_user
             "bob@example.com" "https://img.example.com/b.png" db_one) H1)).
  - split; [exact H2|].
    destruct (proj2 (confirmed_email_update_avatar_need_user
                "bob@example.com" "https://img.example.com/b.png" db_two)
                (ex_intro _ 2 (ex_intro _ (User.data bob) (conj H2 eq_refl))))
      as (user & Hget & _ & _ & Hconf & _).
    exists user. split; assumption.
Defined.

End instances.

(** ** Paging *)

Section paging.

Import repository_contacts Examples.

Lemma NoDup_query_Contact (db : Session) : NoDup (query_Contact db).
Proof.
  unfold query_Contact. apply NoDup_fmap_2_strong; [|apply NoDup_map_to_list].
  intros [k1 r1] [k2 r2] _ _ [= -> ->]. done.
Qed.

Lemma length_query_Contact (db : Session) :
  length (query_Contact db) = size (contacts db).
Proof. unfold query_Contact. by rewrite length_fmap, length_map_to_list. Qed.

(** Whatever the scan order, the scan holds the rows of the table, each
    once. *)
Lemma scan_order_Permutation (position : Z -> Z) (rows : list Contact.t) :
  scan_order position rows ≡ₚ rows.
Proof. apply merge_sort_Permutation. Qed.

Lemma elem_of_scan_order (position : Z -> Z) (db : Session) (c : Contact.t) :
  c ∈ scan_order position (query_Contact db) <->
  contacts db !! Contact.id c = Some (Contact.data c).
Proof. by rewrite scan_order_Permutation, elem_of_query_Contact. Qed.

Lemma NoDup_scan_order (position : Z -> Z) (db : Session) :
  NoDup (scan_order position (query_Contact db)).
Proof. rewrite scan_order_Permutation. apply NoDup_query_Contact. Qed.

Lemma length_owned_scan (position : Z -> Z) (user : User.t) (db : Session) :
  (length (filter (owned_by user) (scan_order position (query_Contact db)))
   <= size (contacts db))%nat.
Proof.
  etransitivity; [apply length_filter|].
  by rewrite scan_order_Permutation, length_query_Contact.
Qed.

Lemma row_counts_accepted (skip limit : Z) :
  0 <= skip <= BIGINT_MAX -> 0 <= limit <= BIGINT_MAX ->
  (skip <? 0) || (limit <? 0) || (BIGINT_MAX <? skip) || (BIGINT_MAX <? limit)
  = false.
Proof.
  intros Hs Hl. repeat (apply orb_false_iff; split); apply Z.ltb_ge; lia.
Qed.

Lemma row_counts_rejected (skip limit : Z) :
  skip < 0 \/ limit < 0 \/ BIGINT_MAX < skip \/ BIGINT_MAX < limit ->
  (skip <? 0) || (limit <? 0) || (BIGINT_MAX <? skip) || (BIGINT_MAX <? limit)
  = true.
Proof.
  intros Hout. rewrite !orb_true_iff, !Z.ltb_lt. tauto.
Qed.

(** The first page of one row under two scan orders. *)
Example get_contacts_scan_orders :
  get_contacts by_id 0 1 alice db_three =
    (Ok [Contact.mk 1 feb11], db_three) /\
  get_contacts newest_first 0 1 alice db_three =
    (Ok [Contact.mk 2 may15], db_three).
Proof. split; vm_compute; reflexivity. Qed.

(** X1: whatever the scan order, [get_contacts] with an offset and a
    limit inside the range of the store returns at most [limit]
    contacts, none of them twice, all of them stored and owned by the
    user, and leaves the store alone; with a negative or too large
    offset or limit it raises the data error of the store. *)
Theorem get_contacts_page (position : Z -> Z) (skip limit : Z)
    (user : User.t) (db : Session) :
  (0 <= skip <= BIGINT_MAX -> 0 <= limit <= BIGINT_MAX ->
   exists l,
     get_contacts position skip limit user db = (Ok l, db) /\
     Z.of_nat (length l) <= limit /\
     NoDup l /\
     forall c, c ∈ l ->
               contacts db !! Contact.id c = Some (Contact.data c) /\
               owned_by user c) /\
  (skip < 0 \/ limit < 0 \/ BIGINT_MAX < skip \/ BIGINT_MAX < limit ->
   get_contacts position skip limit user db = (Raise DataError, db)).
Proof.
  split.
  - intros Hs Hl. unfold get_contacts.
    rewrite (row_counts_accepted skip limit Hs Hl).
    eexists. split; [reflexivity|]. split; [|split].
    + rewrite length_take. lia.
    + eapply sublist_NoDup; [|apply sublist_take].
      eapply sublist_NoDup; [|apply sublist_drop].
      apply NoDup_filter, NoDup_scan_order.
    + intros c Hin.
      apply subseteq_take, subseteq_drop, list_elem_of_filter in Hin.
      destruct Hin as [Hown Hin]. by apply elem_of_scan_order in Hin.
  - intros Hout. unfold get_contacts.
    by rewrite (row_counts_rejected skip limit Hout).
Qed.

(** X2: as long as the store scans the table in the same order,
    consecutive pages join up: the page of [a] rows at [skip] followed
    by the page of [b] rows at [skip + a] is the page of [a + b] rows at
    [skip] (all counts inside the range of the store). *)
Theorem get_contacts_pages_concat (position : Z -> Z) (skip a b : Z)
    (user : User.t) (db : Session) :
  0 <= skip -> 0 <= a -> 0 <= b ->
  skip + a <= BIGINT_MAX -> a + b <= BIGINT_MAX ->
  exists l1 l2,
    get_contacts position skip a user db = (Ok l1, db) /\
    get_contacts position (skip + a) b user db = (Ok l2, db) /\
    get_contacts position skip (a + b) user db = (Ok ((l1 ++ l2)%list), db).
Proof.
  intros Hs Ha Hb Hsa Hab. unfold get_contacts.
  rewrite (row_counts_accepted skip a), (row_counts_accepted (skip + a) b),
    (row_counts_accepted skip (a + b)) by lia.
  do 2 eexists. split; [reflexivity|]. split; [reflexivity|].
  rewrite !Z2Nat.inj_add by lia.
  by rewrite <- drop_drop, take_take_drop.
Qed.

(** X3: from offset 0, with a limit that is at least the number of
    stored rows and inside the range of the store, [get_contacts]
    returns exactly the stored contacts of the user, whatever the scan
    order. *)
Theorem get_contacts_lists_all (position : Z -> Z) (limit : Z)
    (user : User.t) (db : Session) :
  Z.of_nat (size (contacts db)) <= limit ->
  limit <= BIGINT_MAX ->
  exists l,
    get_contacts position 0 limit user db = (Ok l, db) /\
    forall c, c ∈ l <->
              contacts db !! Contact.id c = Some (Contact.data c) /\
              owned_by user c.
Proof.
  intros Hl Hmax. unfold get_contacts.
  rewrite (row_counts_accepted 0 limit) by (unfold BIGINT_MAX in *; lia).
  eexists. split; [reflexivity|]. intros c.
  change (Z.to_nat 0) with 0%nat. rewrite drop_0, take_ge.
  - rewrite list_elem_of_filter, elem_of_scan_order. tauto.
  - pose proof (length_owned_scan position user db). lia.
Qed.

End paging.

(** ** Search texts *)

Section search_texts.

Import repository_contacts Examples.

Lemma like_match_percent_intro (p s : string) :
  like_match p s = true -> like_match (String "%" p) s = true.
Proof. intros Hm. rewrite like_match_percent, Hm. done. Qed.

Lemma like_match_percent_skip (p s1 s2 : string) :
  like_match (String "%" p) s2 = true ->
  like_match (String "%" p) (s1 ++ s2) = true.
Proof.
  intros Hm. induction s1 as [|c s1 IH]; [done|].
  change (String c s1 ++ s2) with (String c (s1 ++ s2)).
  rewrite like_match_percent, IH. apply orb_true_r.
Qed.

(** A text without backslash matches itself, wildcards included. *)
Lemma like_match_literal_prefix (sub q rest : string) :
  no_backslash sub = true ->
  like_match q rest = true ->
  like_match (sub ++ q) (sub ++ rest) = true.
Proof.
  intros Hnb Hq. induction sub as [|a sub IH]; [done|].
  simpl in Hnb. apply andb_true_iff in Hnb as [Ha Hnb].
  apply negb_true_iff in Ha. specialize (IH Hnb).
  change (String a sub ++ q) with (String a (sub ++ q)).
  change (String a sub ++ rest) with (String a (sub ++ rest)).
  destruct (Ascii.eqb a "%") eqn:E1.
  - apply Ascii.eqb_eq in E1. subst a.
    rewrite like_match_percent. apply orb_true_iff. right.
    by apply like_match_percent_intro.
  - simpl. rewrite E1, Ha, Ascii.eqb_refl.
    by destruct (Ascii.eqb a "_").
Qed.

Lemma like_pattern_contains (sub s : string) :
  no_backslash sub = true ->
  contains sub s = true ->
  like_match (like_pattern sub) s = true.
Proof.
  intros Hnb Hc. apply contains_spec in Hc as (pre & post & ->).
  unfold like_pattern.
  change ("%" ++ sub ++ "%") with (String "%" (sub ++ "%")).
  apply like_match_percent_skip, like_match_percent_intro.
  apply like_match_literal_prefix; [done|]. apply like_match_percent_only.
Qed.

Lemma contains_empty (s : string) : contains "" s = true.
Proof. by destruct s. Qed.

(** X4: for a search text without backslash, each of the three
    searches returns every contact of the user whose field contains the
    text literally; the wildcards can only add results. *)
Theorem searches_find_literal_matches (s : string) (user : User.t)
    (db : Session) (c : Contact.t) :
  no_backslash s = true ->
  contacts db !! Contact.id c = Some (Contact.data c) ->
  owned_by user c ->
  (contains s (Contact.name (Contact.data c)) = true ->
   exists l, get_contacts_name s user db = (Ok l, db) /\ c ∈ l) /\
  (contains s (Contact.surname (Contact.data c)) = true ->
   exists l, get_contacts_surname s user db = (Ok l, db) /\ c ∈ l) /\
  (contains s (Contact.email (Contact.data c)) = true ->
   exists l, get_contacts_email s user db = (Ok l, db) /\ c ∈ l).
Proof.
  intros Hnb Hstored Hown.
  split; [|split]; intros Hc; (eexists; split; [reflexivity|]);
    apply list_elem_of_filter; (split; [|by apply elem_of_query_Contact]);
    (split; [|done]); by apply like_pattern_contains.
Qed.

(** X5: for a search text without [%], [_] and backslash, the three
    searches return exactly the stored contacts of the user whose name,
    surname or email contains the text (case-sensitive). *)
Theorem searches_plain_exact (s : string) (user : User.t) (db : Session) :
  plain s = true ->
  exists by_name by_surname by_email,
    get_contacts_name s user db = (Ok by_name, db) /\
    get_contacts_surname s user db = (Ok by_surname, db) /\
    get_contacts_email s user db = (Ok by_email, db) /\
    forall c,
      (c ∈ by_name <->
       contacts db !! Contact.id c = Some (Contact.data c) /\
       owned_by user c /\
       contains s (Contact.name (Contact.data c)) = true) /\
      (c ∈ by_surname <->
       contacts db !! Contact.id c = Some (Contact.data c) /\
       owned_by user c /\
       contains s (Contact.surname (Contact.data c)) = true) /\
      (c ∈ by_email <->
       contacts db !! Contact.id c = Some (Contact.data c) /\
       owned_by user c /\
       contains s (Contact.email (Contact.data c)) = true).
Proof.
  intros Hp. do 3 eexists.
  split; [reflexivity|]. split; [reflexivity|]. split; [reflexivity|].
  intros c.
  rewrite !list_elem_of_filter, !elem_of_query_Contact,
    !like_pattern_plain by done.
  tauto.
Qed.

(** X6: the empty search text matches every value: each of the
    three searches then returns all stored contacts of the user. *)
Theorem empty_search_text_lists_all (user : User.t) (db : Session) :
  exists l,
    get_contacts_name "" user db = (Ok l, db) /\
    get_contacts_surname "" user db = (Ok l, db) /\
    get_contacts_email "" user db = (Ok l, db) /\
    forall c, c ∈ l <->
              contacts db !! Contact.id c = Some (Contact.data c) /\
              owned_by user c.
Proof.
  exists (filter (owned_by user) (query_Contact db)).
  assert (Hall : forall f : Contact.t -> string,
            filter (fun c => like_match (like_pattern "") (f c) = true
                             /\ owned_by user c) (query_Contact db) =
            filter (owned_by user) (query_Contact db)).
  { intros f. apply list_filter_iff. intros c.
    rewrite like_pattern_plain, contains_empty by done. tauto. }
  unfold get_contacts_name, get_contacts_surname, get_contacts_email.
  rewrite (Hall (fun c => Contact.name (Contact.data c))),
    (Hall (fun c => Contact.surname (Contact.data c))),
    (Hall (fun c => Contact.email (Contact.data c))).
  split; [done|]. split; [done|]. split; [done|].
  intros c. rewrite list_elem_of_filter, elem_of_query_Contact. tauto.
Qed.

End search_texts.

(** ** The birthday window *)

Section birthday_window.

Import repository_contacts Examples.

(** A check over every day number and month number of the calendar. *)
Lemma forall_day_month (P : Z -> Z -> bool) :
  forallb (fun d => forallb (P d) (seqZ 1 12)) (seqZ 1 31) = true ->
  forall d m, 1 <= d <= 31 -> 1 <= m <= 12 -> P d m = true.
Proof.
  intros Hall d m Hd Hm.
  rewrite forallb_forall in Hall.
  assert (Hrow : forallb (P d) (seqZ 1 12) = true).
  { apply Hall, list_elem_of_In, elem_of_seqZ. lia. }
  rewrite forallb_forall in Hrow.
  apply Hrow, list_elem_of_In, elem_of_seqZ. lia.
Qed.

Lemma valid_day_month (d : date.t) :
  date.valid d = true -> 1 <= date.day d <= 31 /\ 1 <= date.month d <= 12.
Proof.
  unfold date.valid. intros Hv.
  repeat (apply andb_true_iff in Hv as [Hv ?]).
  pose proof (days_in_month_bounds (date.year d) (date.month d)). lia.
Qed.

(** Two calendar days with the same key are the same day of the same
    month, unless the texts of day and month have different widths. *)
Lemma day_month_key_same_width (d1 d2 : date.t) :
  date.valid d1 = true -> date.valid d2 = true ->
  same_width d1 = true ->
  day_month_key d1 = day_month_key d2 ->
  date.day d1 = date.day d2 /\ date.month d1 = date.month d2.
Proof.
  intros [Hd1 Hm1]%valid_day_month [Hd2 Hm2]%valid_day_month Hw Hk.
  pose (P := fun a b : Z =>
          forallb (fun c => forallb (fun e =>
            implb (same_width (date.mk 0 b a) &&
                   String.eqb (str a ++ str b) (str c ++ str e))
                  ((a =? c) && (b =? e))) (seqZ 1 12)) (seqZ 1 31)).
  assert (HP : P (date.day d1) (date.month d1) = true).
  { apply forall_day_month; [|done|done]. vm_compute. reflexivity. }
  unfold P in HP.
  pose proof (forall_day_month _ HP (date.day d2) (date.month d2) Hd2 Hm2) as HQ.
  simpl in HQ.
  assert (Hw' : same_width (date.mk 0 (date.month d1) (date.day d1)) = true)
    by exact Hw.
  rewrite Hw' in HQ. unfold day_month_key in Hk.
  apply String.eqb_eq in Hk. rewrite Hk in HQ. simpl in HQ.
  apply andb_true_iff in HQ as [H1 H2]. apply Z.eqb_eq in H1, H2. done.
Qed.

(** The key of 29 February belongs to no other calendar day. *)
Lemma day_month_key_feb29 (d : date.t) :
  date.valid d = true ->
  day_month_key d = "292" ->
  date.day d = 29 /\ date.month d = 2.
Proof.
  intros [Hd Hm]%valid_day_month Hk.
  pose proof (forall_day_month
    (fun a b => implb (String.eqb (str a ++ str b) "292")
                  ((a =? 29) && (b =? 2)))
    ltac:(vm_compute; reflexivity) (date.day d) (date.month d) Hd Hm) as HQ.
  simpl in HQ. unfold day_month_key in Hk.
  apply String.eqb_eq in Hk. rewrite Hk in HQ. simpl in HQ.
  apply andb_true_iff in HQ as [H1 H2]. apply Z.eqb_eq in H1, H2. done.
Qed.


(** Seven days ahead stay in the calendar unless the start is one of the
    last days of the last year. *)
Lemma add_days_Some (n : nat) (d : date.t) :
  date.valid d = true ->
  (n <= 31)%nat ->
  date.year d < date.MAXYEAR \/ date.month d < 12 \/
    date.day d + Z.of_nat n <= 31 ->
  is_Some (date.add_days d n).
Proof.
  revert d. induction n as [|n IH]; intros d Hv Hn Hroom; [by eexists|].
  simpl. destruct (date.tomorrow d) as [d1|] eqn:E.
  - apply IH; [by eapply tomorrow_valid|lia|].
    unfold date.tomorrow in E.
    destruct (date.day d <? _) eqn:E1;
      [|destruct (date.month d <? 12) eqn:E2;
        [|destruct (date.year d <? date.MAXYEAR) eqn:E3; [|done]]];
      injection E as <-; simpl; unfold date.MAXYEAR in *; lia.
  - exfalso. unfold date.tomorrow in E.
    apply valid_day_month in Hv as Hb.
    destruct (date.day d <? _) eqn:E1; [done|].
    destruct (date.month d <? 12) eqn:E2; [done|].
    destruct (date.year d <? date.MAXYEAR) eqn:E3; [done|].
    apply Z.ltb_ge in E1, E2, E3.
    assert (Hm : date.month d = 12) by lia. rewrite Hm in E1.
    change (date.days_in_month (date.year d) 12) with 31 in E1. lia.
Qed.

Lemma birthday_days_Some (today : date.t) :
  date.valid today = true ->
  date.year today < date.MAXYEAR \/ date.month today < 12 \/
    date.day today <= 25 ->
  is_Some (birthday_days today).
Proof.
  intros Hv Hroom. unfold birthday_days. apply mapM_is_Some, Forall_forall.
  intros i Hi. apply elem_of_seq in Hi.
  destruct (add_days_Some i today Hv) as [d Hd]; [lia|lia|].
  simpl. rewrite Hd. by eexists.
Qed.

Lemma birthday_days_overflow (today : date.t) :
  date.valid today = true ->
  date.year today = date.MAXYEAR -> date.month today = 12 ->
  26 <= date.day today ->
  birthday_days today = None.
Proof.
  intros Hv Hy Hm Hd. apply valid_day_month in Hv as [Hday _].
  destruct today as [y m d]. simpl in *. subst y m.
  assert (Hcases : d = 26 \/ d = 27 \/ d = 28 \/ d = 29 \/ d = 30 \/ d = 31)
    by lia.
  destruct Hcases as [-> | [-> | [-> | [-> | [-> | ->]]]]]; reflexivity.
Qed.

(** Within a month the date addition only moves the day. *)
Lemma add_days_year (n : nat) (d d' : date.t) :
  date.valid d = true ->
  (n <= 30)%nat ->
  date.add_days d n = Some d' ->
  date.year d' = date.year d \/
  (date.year d' = date.year d + 1 /\ date.month d' = 1 /\
   date.day d' <= Z.of_nat n).
Proof.
  revert d. induction n as [|n IH]; intros d Hv Hn Ha; simpl in Ha.
  - injection Ha as <-. by left.
  - destruct (date.tomorrow d) as [d1|] eqn:E; [|done].
    pose proof (tomorrow_valid d d1 Hv E) as Hv1.
    unfold date.tomorrow in E.
    destruct (date.day d <? _) eqn:E1;
      [|destruct (date.month d <? 12) eqn:E2;
        [|destruct (date.year d <? date.MAXYEAR) eqn:E3; [|done]]];
      injection E as <-.
    + destruct (IH _ Hv1 ltac:(lia) Ha) as [Hy | (Hy & Hm & Hd)]; simpl in *;
        [by left | right; lia].
    + destruct (IH _ Hv1 ltac:(lia) Ha) as [Hy | (Hy & Hm & Hd)]; simpl in *;
        [by left | right; lia].
    + clear IH. right.
      assert (Hjan : forall k dd, (k <= 30)%nat ->
                date.add_days (date.mk (date.year d + 1) 1 dd) k = Some d' ->
                1 <= dd -> dd + Z.of_nat k <= 31 ->
                date.year d' = date.year d + 1 /\ date.month d' = 1 /\
                date.day d' = dd + Z.of_nat k).
      { clear. induction k as [|k IHk]; intros dd Hk Hadd H1 H2; simpl in Hadd.
        - injection Hadd as <-. simpl. lia.
        - unfold date.tomorrow in Hadd. simpl in Hadd.
          change (date.days_in_month (date.year d + 1) 1) with 31 in Hadd.
          destruct (dd <? 31) eqn:E; [|apply Z.ltb_ge in E; lia].
          destruct (IHk (dd + 1) ltac:(lia) Hadd) as (? & ? & ?); lia. }
      destruct (Hjan n 1 ltac:(lia) Ha) as (? & ? & ?); lia.
Qed.


(** X7: [get_contacts_birthday] returns (contacts of the user,
    store unchanged) for every date up to 25 December 9999, and raises
    the overflow of the date addition from 26 December 9999 on. *)
Theorem get_contacts_birthday_overflow (today : date.t) (user : User.t)
    (db : Session) :
  date.valid today = true ->
  ((date.year today < 9999 \/ date.month today < 12 \/ date.day today <= 25) ->
   exists l,
     get_contacts_birthday today user db = (Ok l, db) /\
     forall c, c ∈ l ->
               contacts db !! Contact.id c = Some (Contact.data c) /\
               owned_by user c) /\
  ((date.year today = 9999 /\ date.month today = 12 /\ 26 <= date.day today) ->
   get_contacts_birthday today user db = (Raise OverflowError, db)).
Proof.
  intros Hv. split.
  - intros Hroom. destruct (birthday_days_Some today Hv Hroom) as [days Hdays].
    unfold get_contacts_birthday. rewrite Hdays.
    eexists. split; [reflexivity|]. intros c Hin.
    apply list_elem_of_filter in Hin as [[_ Hown] Hin].
    by apply elem_of_query_Contact in Hin.
  - intros (Hy & Hm & Hd). unfold get_contacts_birthday.
    by rewrite birthday_days_overflow.
Qed.

(** X8: in a year that is not a leap year a contact born on
    29 February is never among the upcoming birthdays. *)
Theorem leap_day_birthday_skipped (today : date.t) (user : User.t)
    (db : Session) (c : Contact.t) (l : list Contact.t) :
  date.valid today = true ->
  date.is_leap (date.year today) = false ->
  date.day (Contact.birthday (Contact.data c)) = 29 ->
  date.month (Contact.birthday (Contact.data c)) = 2 ->
  get_contacts_birthday today user db = (Ok l, db) ->
  c ∉ l.
Proof.
  intros Hv Hleap Hday Hmonth Hrun Hin.
  unfold get_contacts_birthday in Hrun.
  destruct (birthday_days today) as [days|] eqn:Hdays; [|done].
  injection Hrun as <-.
  apply list_elem_of_filter in Hin as [[Hkey _] _].
  unfold day_month_key at 1 in Hkey. rewrite Hday, Hmonth in Hkey.
  destruct (birthday_days_elem today days _ Hdays Hkey) as (i & d & Hi & Hd & Hk).
  pose proof (add_days_valid i today d Hv Hd) as Hvd.
  destruct (day_month_key_feb29 d Hvd Hk) as [Hd29 Hm2].
  destruct (add_days_year i today d Hv ltac:(lia) Hd) as [Hy | (_ & Hm & _)];
    [|lia].
  unfold date.valid in Hvd.
  repeat (apply andb_true_iff in Hvd as [Hvd ?]).
  unfold date.days_in_month in *. rewrite Hy, Hm2, Hleap in *.
  simpl in *. lia.
Qed.

(** X9: for a birthday whose day and month have the same number
    of digits the key is unambiguous: the contact is returned exactly
    when it is stored, owned by the user, and its day and month fall
    in the seven days from today. *)
Theorem get_contacts_birthday_same_width (today : date.t) (user : User.t)
    (db : Session) (c : Contact.t) :
  date.valid today = true ->
  (date.year today < 9999 \/ date.month today < 12 \/ date.day today <= 25) ->
  date.valid (Contact.birthday (Contact.data c)) = true ->
  same_width (Contact.birthday (Contact.data c)) = true ->
  exists l,
    get_contacts_birthday today user db = (Ok l, db) /\
    (c ∈ l <->
     contacts db !! Contact.id c = Some (Contact.data c) /\
     owned_by user c /\
     in_next_seven_days today (Contact.birthday (Contact.data c)) = true).
Proof.
  intros Hv Hroom Hvb Hw.
  destruct (birthday_days_Some today Hv Hroom) as [days Hdays].
  unfold get_contacts_birthday. rewrite Hdays.
  eexists. split; [reflexivity|].
  rewrite list_elem_of_filter, elem_of_query_Contact. split.
  - intros [[Hkey Hown] Hstored]. split; [done|]. split; [done|].
    destruct (birthday_days_elem today days _ Hdays Hkey)
      as (i & d & Hi & Hd & Hk).
    pose proof (add_days_valid i today d Hv Hd) as Hvd.
    destruct (day_month_key_same_width _ d Hvb Hvd Hw (eq_sym Hk)) as [H1 H2].
    apply existsb_exists. exists i. split; [apply in_seq; lia|].
    rewrite Hd. apply andb_true_iff. split; apply Z.eqb_eq; done.
  - intros (Hstored & Hown & Hwin). split; [|done]. split; [|done].
    apply existsb_exists in Hwin as (i & Hi & Hm). apply in_seq in Hi.
    destruct (date.add_days today i) as [d|] eqn:Hd; [|done].
    apply andb_true_iff in Hm as [Hday Hmonth].
    apply Z.eqb_eq in Hday, Hmonth.
    unfold day_month_key at 1. rewrite <- Hday, <- Hmonth.
    apply (birthday_days_lookup today days i d); [done|lia|done].
Qed.

End birthday_window.

(** ** Invariants of the contacts table *)

Section contacts_store.

Import repository_contacts Examples.

Lemma contacts_unique_spec (db : Session) :
  contacts_unique db = true <->
  forall k1 r1 k2 r2,
    contacts db !! k1 = Some r1 -> contacts db !! k2 = Some r2 ->
    Contact.email r1 = Contact.email r2 \/ Contact.phone r1 = Contact.phone r2 ->
    k1 = k2.
Proof.
  unfold contacts_unique. rewrite forallb_forall. split.
  - intros Hall k1 r1 k2 r2 H1 H2 Hsame.
    destruct (decide (k1 = k2)) as [|Hne]; [done|]. exfalso.
    assert (Hv : contacts_unique_violation k2 r2 db = false).
    { apply negb_true_iff.
      apply (Hall (Contact.mk k2 r2)), list_elem_of_In, elem_of_query_Contact.
      done. }
    destruct (proj1 (contacts_unique_violation_false k2 r2 db) Hv k1 r1 H1 Hne).
    tauto.
  - intros Huniq c Hin.
    apply list_elem_of_In, elem_of_query_Contact in Hin.
    apply negb_true_iff, contacts_unique_violation_false.
    intros k' r' Hl Hne. split; intros Heq; apply Hne;
      apply (Huniq k' r' (Contact.id c) (Contact.data c)); auto.
Qed.

(** Writing a row that no other row conflicts with keeps the table free
    of conflicts; so does deleting a row. *)
Lemma contacts_unique_insert (db : Session) (k : Z) (row : Contact.cols) :
  contacts_unique db = true ->
  contacts_unique_violation k row db = false ->
  contacts_unique (set_contacts db (<[k := row]> (contacts db))) = true.
Proof.
  rewrite !contacts_unique_spec, contacts_unique_violation_false.
  intros Huniq Hfree k1 r1 k2 r2. simpl.
  rewrite !lookup_insert.
  repeat case_decide; intros H1 H2 Hsame; simplify_eq; try done.
  - destruct (Hfree k2 r2 H2); [done|]. destruct Hsame; congruence.
  - destruct (Hfree k1 r1 H1); [done|]. destruct Hsame; congruence.
  - by eapply Huniq.
Qed.

Lemma contacts_unique_delete (db : Session) (k : Z) :
  contacts_unique db = true ->
  contacts_unique (set_contacts db (delete k (contacts db))) = true.
Proof.
  rewrite !contacts_unique_spec. intros Huniq k1 r1 k2 r2. simpl.
  intros [_ H1]%lookup_delete_Some [_ H2]%lookup_delete_Some. by eapply Huniq.
Qed.

(** X10: if no two stored contacts share an email or a phone, the
    same holds after any create, update or delete, whether it succeeds
    or raises. *)
Theorem contacts_stay_unique (user : User.t) (db : Session) :
  contacts_unique db = true ->
  (forall body, contacts_unique (create_contact body user db).2 = true) /\
  (forall contact_id body,
      contacts_unique (update_contact contact_id body user db).2 = true) /\
  (forall contact_id,
      contacts_unique (remove_contact contact_id user db).2 = true).
Proof.
  intros Huniq. split; [|split].
  - intros body. unfold create_contact. simpl.
    destruct (contacts_unique_violation _ _ _) eqn:E; [done|].
    by apply contacts_unique_insert.
  - intros contact_id body. unfold update_contact.
    destruct (first_contact _ _ _); [|done].
    destruct (contacts_unique_violation _ _ _) eqn:E; [done|].
    by apply contacts_unique_insert.
  - intros contact_id. unfold remove_contact.
    destruct (first_contact _ _ _); [|done].
    by apply contacts_unique_delete.
Qed.

(** X11: no operation moves a stored contact to another owner:
    create and delete leave every surviving row as it was, and update
    keeps the owner of the row it rewrites and leaves the others as
    they were. *)
Theorem owner_never_changes (user : User.t) (db : Session) (k : Z)
    (r : Contact.cols) :
  contacts db !! k = Some r ->
  (forall body r',
      contacts (create_contact body user db).2 !! k = Some r' -> r' = r) /\
  (forall contact_id body r',
      contacts (update_contact contact_id body user db).2 !! k = Some r' ->
      Contact.user_id r' = Contact.user_id r /\
      (contact_id <> k -> r' = r)) /\
  (forall contact_id r',
      contacts (remove_contact contact_id user db).2 !! k = Some r' -> r' = r).
Proof.
  intros Hstored. split; [|split].
  - intros body r'. unfold create_contact. simpl.
    destruct (contacts_unique_violation _ _ _); simpl; [congruence|].
    rewrite lookup_insert_ne; [congruence|].
    intros Heq. rewrite <- Heq, generated_id_fresh in Hstored. done.
  - intros contact_id body r'. unfold update_contact.
    destruct (first_contact contact_id user db) as [c|] eqn:E;
      [|simpl; split; congruence].
    apply first_contact_owned in E as (Hid & _ & Hl).
    destruct (contacts_unique_violation _ _ _); simpl; [split; congruence|].
    rewrite lookup_insert. case_decide as Hk.
    + intros [= <-]. simpl. split; [|congruence].
      rewrite Hid in Hk. subst k. congruence.
    + split; congruence.
  - intros contact_id r'. unfold remove_contact.
    destruct (first_contact contact_id user db) as [c|]; simpl; [|congruence].
    intros [_ Hl]%lookup_delete_Some. congruence.
Qed.

End contacts_store.

(** ** Create, update and delete within a session *)

Section contacts_flows.

Import repository_contacts Examples.

(** X12: deleting an owned contact returns it, removes exactly that
    row (users untouched, every other id answers as before), and a
    second delete of the id finds nothing and changes nothing. *)
Theorem remove_contact_once (contact_id : Z) (user : User.t) (db : Session)
    (r : Contact.cols) :
  contacts db !! contact_id = Some r ->
  Contact.user_id r = User.id user ->
  exists db',
    remove_contact contact_id user db =
      (Ok (Some (Contact.mk contact_id r)), db') /\
    contacts db' = delete contact_id (contacts db) /\
    users db' = users db /\
    remove_contact contact_id user db' = (Ok None, db') /\
    forall other who, other <> contact_id ->
      (get_contact other who db').1 = (get_contact other who db).1.
Proof.
  intros Hstored Hown. unfold remove_contact at 1.
  rewrite first_contact_lookup, Hstored, decide_True by done. simpl.
  eexists. split; [reflexivity|]. split; [done|]. split; [done|]. split.
  - unfold remove_contact. rewrite first_contact_lookup. simpl.
    by rewrite lookup_delete_eq.
  - intros other who Hne. unfold get_contact. simpl.
    rewrite !first_contact_lookup. simpl.
    by rewrite lookup_delete_ne.
Qed.


(** A row of somebody else, added to the table, is invisible to the
    queries of a user. *)
Lemma query_Contact_insert_other (db : Session) (k : Z) (row : Contact.cols)
    (other : User.t) (c : Contact.t) :
  contacts db !! k = None ->
  Contact.user_id row <> User.id other ->
  owned_by other c ->
  c ∈ query_Contact (set_contacts db (<[k := row]> (contacts db))) <->
  c ∈ query_Contact db.
Proof.
  intros Hfresh Hrow Hown. rewrite !elem_of_query_Contact. simpl.
  rewrite lookup_insert. case_decide as Hk; [|done].
  split.
  - intros [= Heq]. unfold owned_by in Hown. congruence.
  - intros Hl. congruence.
Qed.

(** X13: a create by one user changes nothing that another user
    can see: the users table, every [get_contact] and the results of
    the three searches of the other user are as before. *)
Theorem create_contact_invisible_to_others (body : ContactModel.t)
    (user other : User.t) (db : Session) :
  User.id other <> User.id user ->
  let db' := (create_contact body user db).2 in
  users db' = users db /\
  (forall contact_id,
      (get_contact contact_id other db').1 =
      (get_contact contact_id other db).1) /\
  (forall s l l',
      get_contacts_name s other db = (Ok l, db) ->
      get_contacts_name s other db' = (Ok l', db') ->
      forall c, c ∈ l' <-> c ∈ l) /\
  (forall s l l',
      get_contacts_surname s other db = (Ok l, db) ->
      get_contacts_surname s other db' = (Ok l', db') ->
      forall c, c ∈ l' <-> c ∈ l) /\
  (forall s l l',
      get_contacts_email s other db = (Ok l, db) ->
      get_contacts_email s other db' = (Ok l', db') ->
      forall c, c ∈ l' <-> c ∈ l).
Proof.
  intros Hne. unfold create_contact. simpl.
  destruct (contacts_unique_violation _ _ _); simpl.
  { split; [done|]. split; [done|].
    split; [|split]; intros s l l' H1 H2 c; rewrite H1 in H2;
      by injection H2 as ->. }
  pose proof (generated_id_fresh (contacts db)) as Hfresh.
  set (k := generated_id (contacts db)) in *.
  set (row := row_of body (User.id user)).
  assert (Hrow : Contact.user_id row <> User.id other) by (simpl; congruence).
  split; [done|]. split; [|split; [|split]].
  - intros contact_id. unfold get_contact. simpl.
    rewrite !first_contact_lookup. simpl. rewrite lookup_insert.
    case_decide as Hk; [|done]. subst contact_id. rewrite Hfresh.
    by rewrite decide_False.
  - intros s l l' [= <-] [= <-] c. rewrite !list_elem_of_filter.
    split; intros [[Hm Ho] Hin]; (split; [done|]);
      by apply (query_Contact_insert_other db k row other c).
  - intros s l l' [= <-] [= <-] c. rewrite !list_elem_of_filter.
    split; intros [[Hm Ho] Hin]; (split; [done|]);
      by apply (query_Contact_insert_other db k row other c).
  - intros s l l' [= <-] [= <-] c. rewrite !list_elem_of_filter.
    split; intros [[Hm Ho] Hin]; (split; [done|]);
      by apply (query_Contact_insert_other db k row other c).
Qed.

(** X14: after the owner's update through the route, reading the
    id returns the updated contact, whose fields are those of the
    body, and sending the same update again returns the same contact
    and leaves the store as it is. *)
Theorem update_then_get (contact_id : Z) (body : ContactUpdate.t)
    (user : User.t) (db : Session) (r : Contact.cols) :
  contacts db !! contact_id = Some r ->
  Contact.user_id r = User.id user ->
  (forall k' r', contacts db !! k' = Some r' -> k' <> contact_id ->
                 Contact.email r' <> ContactUpdate.email body /\
                 Contact.phone r' <> ContactUpdate.phone body) ->
  exists c db',
    routes_contacts.update_contact body contact_id user db = (Ok c, db') /\
    routes_contacts.read_contact contact_id user db' = (Ok c, db') /\
    Contact.data c = row_of body (User.id user) /\
    routes_contacts.update_contact body contact_id user db' = (Ok c, db').
Proof.
  intros Hstored Hown Hfree.
  assert (Hv : contacts_unique_violation contact_id
                 (row_of body (Contact.user_id r)) db = false).
  { by apply contacts_unique_violation_false. }
  unfold routes_contacts.update_contact at 1, bind, update_contact.
  rewrite first_contact_lookup, Hstored, decide_True by done. simpl.
  rewrite Hv. simpl. do 2 eexists. split; [reflexivity|].
  set (db' := set_contacts db _).
  assert (Hl : contacts db' !! contact_id = Some (row_of body (Contact.user_id r))).
  { unfold db'. simpl. by rewrite lookup_insert_eq. }
  split; [|split].
  - unfold routes_contacts.read_contact, bind, get_contact.
    rewrite first_contact_lookup, Hl, decide_True by done. done.
  - simpl. by rewrite Hown.
  - unfold routes_contacts.update_contact, bind, update_contact.
    rewrite first_contact_lookup, Hl, decide_True by done. simpl.
    assert (Hv' : contacts_unique_violation contact_id
                    (row_of body (Contact.user_id r)) db' = false).
    { apply contacts_unique_violation_false. intros k' r' Hk' Hne.
      unfold db' in Hk'. simpl in Hk'. rewrite lookup_insert_ne in Hk' by done.
      by apply (Hfree k' r'). }
    rewrite Hv'. simpl. unfold db'. simpl.
    by rewrite insert_insert_eq.
Qed.

End contacts_flows.

(** ** The contact routes *)

Section contact_routes.

Import Examples.

(** X15: the get, update and delete routes answer an id that is
    not stored and an id stored for another user with the same error,
    404 "Contact not found", and leave the store alone. *)
Theorem missing_and_foreign_answer_alike (contact_id : Z) (user : User.t)
    (db : Session) :
  (contacts db !! contact_id = None \/
   exists r, contacts db !! contact_id = Some r /\
             Contact.user_id r <> User.id user) ->
  routes_contacts.read_contact contact_id user db =
    (Raise (HTTPException 404 "Contact not found"), db) /\
  (forall body,
      routes_contacts.update_contact body contact_id user db =
        (Raise (HTTPException 404 "Contact not found"), db)) /\
  routes_contacts.remove_contact contact_id user db =
    (Raise (HTTPException 404 "Contact not found"), db).
Proof.
  intros Habsent.
  assert (Hnone : repository_contacts.first_contact contact_id user db = None).
  { rewrite first_contact_lookup.
    destruct Habsent as [-> | (r & -> & Hr)]; [done|].
    by rewrite decide_False. }
  unfold routes_contacts.read_contact, routes_contacts.update_contact,
    routes_contacts.remove_contact, bind, repository_contacts.get_contact,
    repository_contacts.update_contact, repository_contacts.remove_contact.
  by rewrite Hnone.
Qed.

(** X16: the delete route returns the contact the first time; a
    repeated delete, and a read, of the same id then answer 404. *)
Theorem remove_contact_twice (contact_id : Z) (user : User.t) (db : Session)
    (r : Contact.cols) :
  contacts db !! contact_id = Some r ->
  Contact.user_id r = User.id user ->
  exists db',
    routes_contacts.remove_contact contact_id user db =
      (Ok (Contact.mk contact_id r), db') /\
    contacts db' = delete contact_id (contacts db) /\
    users db' = users db /\
    routes_contacts.remove_contact contact_id user db' =
      (Raise (HTTPException 404 "Contact not found"), db') /\
    routes_contacts.read_contact contact_id user db' =
      (Raise (HTTPException 404 "Contact not found"), db').
Proof.
  intros Hstored Hown.
  unfold routes_contacts.remove_contact at 1, bind,
    repository_contacts.remove_contact.
  rewrite first_contact_lookup, Hstored, decide_True by done. simpl.
  eexists. split; [reflexivity|]. split; [done|]. split; [done|].
  unfold routes_contacts.remove_contact, routes_contacts.read_contact, bind,
    repository_contacts.remove_contact, repository_contacts.get_contact.
  rewrite first_contact_lookup. simpl. by rewrite lookup_delete_eq.
Qed.

(** X17: called without parameters the list route never raises,
    returns at most 100 contacts, all stored and owned by the user,
    and returns all of them when the table holds at most 100 rows. *)
Theorem read_contacts_default_page (position : Z -> Z) (user : User.t)
    (db : Session) :
  exists l,
    routes_contacts.read_contacts position None None user db = (Ok l, db) /\
    (length l <= 100)%nat /\
    (forall c, c ∈ l ->
               contacts db !! Contact.id c = Some (Contact.data c) /\
               repository_contacts.owned_by user c) /\
    ((size (contacts db) <= 100)%nat ->
     forall c, contacts db !! Contact.id c = Some (Contact.data c) ->
               repository_contacts.owned_by user c -> c ∈ l).
Proof.
  unfold routes_contacts.read_contacts, repository_contacts.get_contacts.
  change (default routes_contacts.default_skip None) with 0.
  change (default routes_contacts.default_limit None) with 100.
  change ((0 <? 0) || (100 <? 0) ||
          (repository_contacts.BIGINT_MAX <? 0) ||
          (repository_contacts.BIGINT_MAX <? 100)) with false.
  change (Z.to_nat 0) with 0%nat. change (Z.to_nat 100) with 100%nat.
  rewrite drop_0. cbv beta iota.
  eexists. split; [reflexivity|]. split; [|split].
  - rewrite length_take. lia.
  - intros c Hin.
    apply subseteq_take, list_elem_of_filter in Hin as [Hown Hin].
    by apply elem_of_scan_order in Hin.
  - intros Hsize c Hstored Hown. rewrite take_ge.
    + apply list_elem_of_filter. split; [done|].
      by apply elem_of_scan_order.
    + pose proof (length_owned_scan position user db). lia.
Qed.

End contact_routes.

(** ** The users table *)

Section users_store.

Import repository_users Examples.

Lemma users_unique_spec (db : Session) :
  users_unique db = true <->
  forall k1 r1 k2 r2,
    users db !! k1 = Some r1 -> users db !! k2 = Some r2 ->
    User.email r1 = User.email r2 -> k1 = k2.
Proof.
  unfold users_unique. rewrite forallb_forall. split.
  - intros Hall k1 r1 k2 r2 H1 H2 Hsame.
    destruct (decide (k1 = k2)) as [|Hne]; [done|]. exfalso.
    assert (Hv : users_unique_violation k2 r2 db = false).
    { apply negb_true_iff.
      apply (Hall (User.mk k2 r2)), list_elem_of_In, elem_of_query_User.
      done. }
    by apply (proj1 (users_unique_violation_false k2 r2 db) Hv k1 r1 H1 Hne).
  - intros Huniq u Hin.
    apply list_elem_of_In, elem_of_query_User in Hin.
    apply negb_true_iff, users_unique_violation_false.
    intros k' r' Hl Hne Heq. apply Hne.
    by apply (Huniq k' r' (User.id u) (User.data u)).
Qed.

(** With unique emails the lookup by email finds the one row that holds
    the email. *)
Lemma first_user_unique (db : Session) (k : Z) (r : User.cols) :
  users_unique db = true ->
  users db !! k = Some r ->
  first_user (User.email r) db = Some (User.mk k r).
Proof.
  intros Huniq Hstored.
  destruct (first_user (User.email r) db) as [u|] eqn:E.
  - apply first_user_Some in E as [Hl He].
    rewrite users_unique_spec in Huniq.
    pose proof (Huniq _ _ _ _ Hl Hstored He) as Hk.
    destruct u as [k' r']. simpl in *. subst k'. congruence.
  - exfalso. by apply (proj1 (first_user_None _ _) E k r).
Qed.

(** Rewriting a row without touching its email keeps the emails unique. *)
Lemma users_unique_rewrite (db : Session) (k : Z) (r r' : User.cols) :
  users_unique db = true ->
  users db !! k = Some r ->
  User.email r' = User.email r ->
  users_unique (set_users db (<[k := r']> (users db))) = true.
Proof.
  rewrite !users_unique_spec. intros Huniq Hstored He k1 r1 k2 r2. simpl.
  rewrite !lookup_insert.
  case_decide as E1; case_decide as E2; intros H1 H2 Hsame.
  - congruence.
  - injection H1 as <-. subst k1. symmetry.
    apply (Huniq k2 r2 k r); congruence.
  - injection H2 as <-. subst k2. apply (Huniq k1 r1 k r); congruence.
  - by eapply Huniq.
Qed.

Lemma users_unique_insert (db : Session) (k : Z) (row : User.cols) :
  users_unique db = true ->
  users_unique_violation k row db = false ->
  users_unique (set_users db (<[k := row]> (users db))) = true.
Proof.
  rewrite !users_unique_spec, users_unique_violation_false.
  intros Huniq Hfree k1 r1 k2 r2. simpl.
  rewrite !lookup_insert.
  case_decide as E1; case_decide as E2; intros H1 H2 Hsame.
  - congruence.
  - injection H1 as <-. subst k1. exfalso.
    apply (Hfree k2 r2 H2); congruence.
  - injection H2 as <-. subst k2. exfalso.
    apply (Hfree k1 r1 H1); congruence.
  - by eapply Huniq.
Qed.

Lemma alter_lookup_Some {V} (f : V -> V) (m : gmap Z V) (k : Z) (v : V) :
  m !! k = Some v -> alter f k m = <[k := f v]> m.
Proof.
  intros Hl. apply map_eq. intros j.
  rewrite lookup_alter, lookup_insert. case_decide; [|done].
  subst j. by rewrite Hl.
Qed.

(** X18: if no two stored users share an email, the same holds
    after [create_user], [confirmed_email], [update_avatar] and
    [update_token], whether they succeed or raise. *)
Theorem users_stay_unique (db : Session) :
  users_unique db = true ->
  (forall gravatar now body,
      users_unique (create_user gravatar now body db).2 = true) /\
  (forall email, users_unique (confirmed_email email db).2 = true) /\
  (forall email url, users_unique (update_avatar email url db).2 = true) /\
  (forall user token, users_unique (update_token user token db).2 = true).
Proof.
  intros Huniq. split; [|split; [|split]].
  - intros gravatar now body. unfold create_user. simpl.
    destruct (users_unique_violation _ _ _) eqn:E; [done|].
    by apply users_unique_insert.
  - intros email. unfold confirmed_email, bind, get_user_by_email.
    destruct (first_user email db) as [u|] eqn:E; [|done].
    apply first_user_Some in E as [Hl _]. simpl.
    by apply (users_unique_rewrite db _ (User.data u)).
  - intros email url. unfold update_avatar, bind, get_user_by_email.
    destruct (first_user email db) as [u|] eqn:E; [|done].
    apply first_user_Some in E as [Hl _]. simpl.
    by apply (users_unique_rewrite db _ (User.data u)).
  - intros user token. unfold update_token. simpl.
    destruct (users db !! User.id user) as [r|] eqn:E.
    + rewrite (alter_lookup_Some _ _ _ r E).
      by apply (users_unique_rewrite db _ r).
    + rewrite alter_id' by done. by destruct db.
Qed.


(** X19: a user created under an unused email is found again by
    [get_user_by_email]; it starts unconfirmed, without refresh token,
    with the creation time of the store. *)
Theorem create_user_then_lookup (gravatar : string -> gravatar_outcome)
    (now : Z) (body : UserModel.t) (db : Session) :
  (forall k r, users db !! k = Some r ->
               User.email r <> UserModel.email body) ->
  exists user db',
    create_user gravatar now body db = (Ok user, db') /\
    get_user_by_email (UserModel.email body) db' = (Ok (Some user), db') /\
    User.confirmed (User.data user) = false /\
    User.refresh_token (User.data user) = None /\
    User.created_at (User.data user) = now.
Proof.
  intros Hfree. unfold create_user. simpl.
  set (row := new_user body _ now). set (k := generated_id (users db)).
  assert (Hv : users_unique_violation k row db = false).
  { apply users_unique_violation_false. intros k' r' Hl _. by apply (Hfree k' r'). }
  rewrite Hv. do 2 eexists. split; [reflexivity|]. split; [|done].
  unfold get_user_by_email. f_equal. f_equal.
  set (db' := set_users db _).
  destruct (first_user (UserModel.email body) db') as [u|] eqn:E.
  - apply first_user_Some in E as [Hl He]. unfold db' in Hl. simpl in Hl.
    rewrite lookup_insert in Hl. case_decide as Hk.
    + destruct u as [k' r']. simpl in *. congruence.
    + exfalso. by apply (Hfree _ _ Hl).
  - exfalso. apply (proj1 (first_user_None _ _) E k row); [|done].
    unfold db'. simpl. by rewrite lookup_insert_eq.
Qed.

(** X20: with unique emails, [confirmed_email] rewrites only the row of
    the user holding the email (contacts untouched): the new row has
    [confirmed] set and every other column as before; the lookup then
    returns that user, and confirming again changes nothing. *)
Theorem confirmed_email_marks_user (db : Session) (k : Z) (r : User.cols) :
  users_unique db = true ->
  users db !! k = Some r ->
  exists db' r',
    confirmed_email (User.email r) db = (Ok tt, db') /\
    users db' = <[k := r']> (users db) /\
    contacts db' = contacts db /\
    User.confirmed r' = true /\
    User.username r' = User.username r /\
    User.email r' = User.email r /\
    User.password r' = User.password r /\
    User.created_at r' = User.created_at r /\
    User.avatar r' = User.avatar r /\
    User.refresh_token r' = User.refresh_token r /\
    get_user_by_email (User.email r) db' = (Ok (Some (User.mk k r')), db') /\
    confirmed_email (User.email r) db' = (Ok tt, db').
Proof.
  intros Huniq Hstored.
  pose proof (first_user_unique db k r Huniq Hstored) as Hfirst.
  unfold confirmed_email at 1, bind, get_user_by_email. rewrite Hfirst. simpl.
  do 2 eexists. split; [reflexivity|]. split; [done|].
  do 8 (split; [done|]).
  set (db' := set_users db _).
  assert (Huniq' : users_unique db' = true)
    by (by apply (users_unique_rewrite db k r)).
  assert (Hstored' : users db' !! k = Some (set_confirmed r true))
    by (unfold db'; simpl; by rewrite lookup_insert_eq).
  pose proof (first_user_unique db' k _ Huniq' Hstored') as Hfirst'.
  simpl in Hfirst'.
  unfold confirmed_email, bind, get_user_by_email. rewrite Hfirst'. simpl.
  split; [done|]. f_equal. unfold db'. unfold set_users. simpl.
  by rewrite insert_insert_eq.
Qed.

(** X21: with unique emails, [update_avatar] rewrites only the row of
    the user holding the email (contacts untouched): the new row has the
    given URL as avatar and every other column as before; that user is
    returned, and it is the user the lookup by email returns afterwards. *)
Theorem update_avatar_stores_url (db : Session) (k : Z) (r : User.cols)
    (url : string) :
  users_unique db = true ->
  users db !! k = Some r ->
  exists db' r',
    update_avatar (User.email r) url db = (Ok (User.mk k r'), db') /\
    users db' = <[k := r']> (users db) /\
    contacts db' = contacts db /\
    User.avatar r' = Some url /\
    User.username r' = User.username r /\
    User.email r' = User.email r /\
    User.password r' = User.password r /\
    User.created_at r' = User.created_at r /\
    User.refresh_token r' = User.refresh_token r /\
    User.confirmed r' = User.confirmed r /\
    get_user_by_email (User.email r) db' = (Ok (Some (User.mk k r')), db').
Proof.
  intros Huniq Hstored.
  pose proof (first_user_unique db k r Huniq Hstored) as Hfirst.
  unfold update_avatar, bind, get_user_by_email. rewrite Hfirst. simpl.
  do 2 eexists. split; [reflexivity|]. split; [done|].
  do 8 (split; [done|]).
  set (db' := set_users db _).
  assert (Huniq' : users_unique db' = true)
    by (by apply (users_unique_rewrite db k r)).
  assert (Hstored' : users db' !! k = Some (set_avatar r (Some url)))
    by (unfold db'; simpl; by rewrite lookup_insert_eq).
  pose proof (first_user_unique db' k _ Huniq' Hstored') as Hfirst'.
  simpl in Hfirst'. by rewrite Hfirst'.
Qed.

(** X22: for a user loaded from the store, [update_token] rewrites only
    the row of that user (contacts untouched): the new row has the given
    token, or none, as refresh token and every other column as before;
    the lookup by email returns the user with that row, and clearing the
    token afterwards gives the same store as clearing it directly. *)
Theorem update_token_sets_and_clears (user : User.t) (token : option string)
    (db : Session) :
  users_unique db = true ->
  users db !! User.id user = Some (User.data user) ->
  exists db' r',
    update_token user token db = (Ok tt, db') /\
    users db' = <[User.id user := r']> (users db) /\
    contacts db' = contacts db /\
    User.refresh_token r' = token /\
    User.username r' = User.username (User.data user) /\
    User.email r' = User.email (User.data user) /\
    User.password r' = User.password (User.data user) /\
    User.created_at r' = User.created_at (User.data user) /\
    User.avatar r' = User.avatar (User.data user) /\
    User.confirmed r' = User.confirmed (User.data user) /\
    get_user_by_email (User.email (User.data user)) db' =
      (Ok (Some (User.mk (User.id user) r')), db') /\
    (update_token user None db').2 = (update_token user None db).2 /\
    forall r0, users (update_token user None db').2 !! User.id user = Some r0 ->
               User.refresh_token r0 = None.
Proof.
  intros Huniq Hstored. unfold update_token at 1.
  rewrite (alter_lookup_Some _ _ _ _ Hstored).
  do 2 eexists. split; [reflexivity|]. split; [done|].
  do 8 (split; [done|]).
  set (db' := set_users db _).
  assert (Huniq' : users_unique db' = true)
    by (by apply (users_unique_rewrite db (User.id user) (User.data user))).
  assert (Hstored' : users db' !! User.id user =
                     Some (set_refresh_token (User.data user) token))
    by (unfold db'; simpl; by rewrite lookup_insert_eq).
  pose proof (first_user_unique db' _ _ Huniq' Hstored') as Hfirst'.
  simpl in Hfirst'. unfold get_user_by_email. rewrite Hfirst'.
  split; [done|].
  unfold update_token. simpl.
  rewrite (alter_lookup_Some _ _ _ _ Hstored).
  rewrite (alter_lookup_Some _ _ _ _ (lookup_insert_eq _ _ _)).
  split.
  - unfold set_users. simpl. by rewrite insert_insert_eq.
  - intros r0. rewrite lookup_insert_eq. by intros [= <-].
Qed.

End users_store.

(** ** Further worked instances *)

Section more_instances.

Import repository_contacts repository_users Examples.

Lemma get_contacts_page_witness :
  0 <= 1 <= BIGINT_MAX /\
  (exists l,
      get_contacts newest_first 1 1 alice db_three = (Ok l, db_three) /\
      Z.of_nat (length l) <= 1 /\ NoDup l) /\
  get_contacts newest_first 0 (BIGINT_MAX + 1) alice db_three =
    (Raise DataError, db_three) /\
  get_contacts newest_first (-1) 10 alice db_three =
    (Raise DataError, db_three).
Proof.
  assert (H1 : 0 <= 1 <= BIGINT_MAX) by (unfold BIGINT_MAX; lia).
  split; [exact H1|]. split; [|split].
  - destruct (proj1 (get_contacts_page newest_first 1 1 alice db_three) H1 H1)
      as (l & Hrun & Hlen & Hnd & _).
    exists l. split; [exact Hrun|]. split; [exact Hlen | exact Hnd].
  - apply (proj2 (get_contacts_page newest_first 0 (BIGINT_MAX + 1)
                    alice db_three)).
    right. right. right. unfold BIGINT_MAX. lia.
  - apply (proj2 (get_contacts_page newest_first (-1) 10 alice db_three)).
    left. lia.
Defined.

Lemma get_contacts_pages_concat_witness :
  0 <= 0 /\ 0 <= 1 /\ 0 + 1 <= BIGINT_MAX /\ 1 + 1 <= BIGINT_MAX /\
  exists l1 l2,
    get_contacts by_id 0 1 alice db_three = (Ok l1, db_three) /\
    get_contacts by_id 1 1 alice db_three = (Ok l2, db_three) /\
    get_contacts by_id 0 2 alice db_three = (Ok ((l1 ++ l2)%list), db_three).
Proof.
  assert (H0 : 0 <= 0) by lia. assert (H1 : 0 <= 1) by lia.
  assert (H2 : 0 + 1 <= BIGINT_MAX) by (unfold BIGINT_MAX; lia).
  assert (H3 : 1 + 1 <= BIGINT_MAX) by (unfold BIGINT_MAX; lia).
  split; [exact H0|]. split; [exact H1|]. split; [exact H2|].
  split; [exact H3|].
  exact (get_contacts_pages_concat by_id 0 1 1 alice db_three H0 H1 H1 H2 H3).
Defined.

Lemma get_contacts_lists_all_witness :
  Z.of_nat (size (contacts db_three)) <= 10 /\
  10 <= BIGINT_MAX /\
  exists l,
    get_contacts newest_first 0 10 alice db_three = (Ok l, db_three) /\
    Contact.mk 1 feb11 ∈ l /\ Contact.mk 3 oct12 ∉ l.
Proof.
  assert (H1 : Z.of_nat (size (contacts db_three)) <= 10)
    by (vm_compute; discriminate).
  assert (H2 : 10 <= BIGINT_MAX) by (vm_compute; discriminate).
  split; [exact H1|]. split; [exact H2|].
  destruct (get_contacts_lists_all newest_first 10 alice db_three H1 H2)
    as (l & Hrun & Hall).
  exists l. split; [exact Hrun|]. split.
  - apply (proj2 (Hall (Contact.mk 1 feb11))).
    split; [vm_compute; reflexivity | reflexivity].
  - intros Hin. apply (proj1 (Hall (Contact.mk 3 oct12))) in Hin.
    destruct Hin as [_ Hown]. vm_compute in Hown. discriminate Hown.
Defined.

Lemma searches_find_literal_matches_witness :
  no_backslash "w_C" = true /\
  contacts db_renamed !! 1 = Some renamed /\
  owned_by alice (Contact.mk 1 renamed) /\
  contains "w_C" (Contact.surname renamed) = true /\
  exists l,
    get_contacts_surname "w_C" alice db_renamed = (Ok l, db_renamed) /\
    Contact.mk 1 renamed ∈ l.
Proof.
  assert (H1 : no_backslash "w_C" = true) by reflexivity.
  assert (H2 : contacts db_renamed !! Contact.id (Contact.mk 1 renamed) =
               Some (Contact.data (Contact.mk 1 renamed)))
    by (vm_compute; reflexivity).
  assert (H3 : owned_by alice (Contact.mk 1 renamed)) by reflexivity.
  assert (H4 : contains "w_C" (Contact.surname renamed) = true)
    by (vm_compute; reflexivity).
  split; [exact H1|]. split; [exact H2|]. split; [exact H3|].
  split; [exact H4|].
  exact (proj1 (proj2 (searches_find_literal_matches "w_C" alice db_renamed
                         (Contact.mk 1 renamed) H1 H2 H3)) H4).
Defined.

Lemma searches_plain_exact_witness :
  plain "ob" = true /\
  exists by_name,
    get_contacts_name "ob" alice db_three = (Ok by_name, db_three) /\
    Contact.mk 1 feb11 ∈ by_name /\ Contact.mk 2 may15 ∉ by_name.
Proof.
  assert (H1 : plain "ob" = true) by reflexivity.
  split; [exact H1|].
  destruct (searches_plain_exact "ob" alice db_three H1)
    as (by_name & by_surname & by_email & Hn & _ & _ & Hall).
  exists by_name. split; [exact Hn|]. split.
  - apply (proj2 (proj1 (Hall (Contact.mk 1 feb11)))).
    split; [vm_compute; reflexivity|]. split; reflexivity.
  - intros Hin. apply (proj1 (proj1 (Hall (Contact.mk 2 may15)))) in Hin.
    destruct Hin as (_ & _ & Hc). vm_compute in Hc. discriminate Hc.
Defined.

Lemma get_contacts_birthday_overflow_witness :
  date.valid dec1 = true /\ date.valid last_days = true /\
  (exists l, get_contacts_birthday dec1 alice db_one = (Ok l, db_one)) /\
  get_contacts_birthday last_days alice db_one = (Raise OverflowError, db_one).
Proof.
  assert (H1 : date.valid dec1 = true) by reflexivity.
  assert (H2 : date.valid last_days = true) by reflexivity.
  split; [exact H1|]. split; [exact H2|]. split.
  - destruct (proj1 (get_contacts_birthday_overflow dec1 alice db_one H1))
      as (l & Hrun & _).
    + left. reflexivity.
    + exists l. exact Hrun.
  - apply (proj2 (get_contacts_birthday_overflow last_days alice db_one H2)).
    split; [reflexivity|]. split; [reflexivity|]. vm_compute. discriminate.
Defined.

Lemma leap_day_birthday_skipped_witness :
  date.valid feb25_2023 = true /\
  date.is_leap (date.year feb25_2023) = false /\
  get_contacts_birthday feb25_2023 alice db_leap = (Ok [], db_leap) /\
  Contact.mk 1 leap_day ∉ ([] : list Contact.t).
Proof.
  assert (H1 : date.valid feb25_2023 = true) by reflexivity.
  assert (H2 : date.is_leap (date.year feb25_2023) = false) by reflexivity.
  assert (H3 : get_contacts_birthday feb25_2023 alice db_leap =
               (Ok [], db_leap)) by (vm_compute; reflexivity).
  split; [exact H1|]. split; [exact H2|]. split; [exact H3|].
  exact (leap_day_birthday_skipped feb25_2023 alice db_leap
           (Contact.mk 1 leap_day) [] H1 H2 eq_refl eq_refl H3).
Defined.

Lemma get_contacts_birthday_same_width_witness :
  date.valid oct10 = true /\
  date.valid (Contact.birthday oct12) = true /\
  same_width (Contact.birthday oct12) = true /\
  exists l,
    get_contacts_birthday oct10 bob db_three = (Ok l, db_three) /\
    Contact.mk 3 oct12 ∈ l.
Proof.
  assert (H1 : date.valid oct10 = true) by reflexivity.
  assert (H2 : date.valid (Contact.birthday oct12) = true) by reflexivity.
  assert (H3 : same_width (Contact.birthday oct12) = true) by reflexivity.
  split; [exact H1|]. split; [exact H2|]. split; [exact H3|].
  destruct (get_contacts_birthday_same_width oct10 bob db_three
              (Contact.mk 3 oct12) H1 (or_introl eq_refl) H2 H3)
    as (l & Hrun & Hiff).
  exists l. split; [exact Hrun|]. apply (proj2 Hiff).
  split; [vm_compute; reflexivity|]. split; [reflexivity|].
  vm_compute. reflexivity.
Defined.

Lemma contacts_stay_unique_witness :
  contacts_unique db_three = true /\
  contacts_unique (create_contact new_contact alice db_three).2 = true /\
  contacts_unique (update_contact 2 same_email alice db_three).2 = true /\
  contacts_unique (remove_contact 1 alice db_three).2 = true.
Proof.
  assert (H1 : contacts_unique db_three = true) by (vm_compute; reflexivity).
  split; [exact H1|].
  destruct (contacts_stay_unique alice db_three H1) as (Hc & Hu & Hr).
  split; [exact (Hc new_contact)|].
  split; [exact (Hu 2 same_email) | exact (Hr 1)].
Defined.

Lemma owner_never_changes_witness :
  contacts db_three !! 3 = Some oct12 /\
  forall contact_id body r',
    contacts (update_contact contact_id body alice db_three).2 !! 3 = Some r' ->
    Contact.user_id r' = 2.
Proof.
  assert (H1 : contacts db_three !! 3 = Some oct12) by (vm_compute; reflexivity).
  split; [exact H1|].
  intros contact_id body r' Hl.
  exact (proj1 (proj1 (proj2 (owner_never_changes alice db_three 3 oct12 H1))
                  contact_id body r' Hl)).
Defined.

Lemma remove_contact_once_witness :
  contacts db_two !! 1 = Some feb11 /\
  Contact.user_id feb11 = User.id alice /\
  exists db',
    remove_contact 1 alice db_two = (Ok (Some (Contact.mk 1 feb11)), db') /\
    remove_contact 1 alice db' = (Ok None, db') /\
    (get_contact 2 alice db').1 = (get_contact 2 alice db_two).1.
Proof.
  assert (H1 : contacts db_two !! 1 = Some feb11) by (vm_compute; reflexivity).
  assert (H2 : Contact.user_id feb11 = User.id alice) by reflexivity.
  split; [exact H1|]. split; [exact H2|].
  destruct (remove_contact_once 1 alice db_two feb11 H1 H2)
    as (db' & Hrun & _ & _ & Hagain & Hframe).
  exists db'. split; [exact Hrun|]. split; [exact Hagain|].
  apply Hframe. discriminate.
Defined.

Lemma create_contact_invisible_to_others_witness :
  User.id bob <> User.id alice /\
  forall contact_id,
    (get_contact contact_id bob (create_contact new_contact alice db_three).2).1 =
    (get_contact contact_id bob db_three).1.
Proof.
  assert (H1 : User.id bob <> User.id alice) by (vm_compute; discriminate).
  split; [exact H1|].
  exact (proj1 (proj2
    (create_contact_invisible_to_others new_contact alice bob db_three H1))).
Defined.

Lemma update_then_get_witness :
  contacts db_two !! 1 = Some feb11 /\
  Contact.user_id feb11 = User.id alice /\
  (forall k' r', contacts db_two !! k' = Some r' -> k' <> 1 ->
                 Contact.email r' <> ContactUpdate.email new_contact /\
                 Contact.phone r' <> ContactUpdate.phone new_contact) /\
  exists c db',
    routes_contacts.update_contact new_contact 1 alice db_two = (Ok c, db') /\
    routes_contacts.read_contact 1 alice db' = (Ok c, db') /\
    Contact.name (Contact.data c) = "Ann".
Proof.
  assert (H1 : contacts db_two !! 1 = Some feb11) by (vm_compute; reflexivity).
  assert (H2 : Contact.user_id feb11 = User.id alice) by reflexivity.
  assert (H3 : forall k' r', contacts db_two !! k' = Some r' -> k' <> 1 ->
                 Contact.email r' <> ContactUpdate.email new_contact /\
                 Contact.phone r' <> ContactUpdate.phone new_contact).
  { apply (proj1 (contacts_unique_violation_false 1
                    (row_of new_contact 1) db_two)).
    vm_compute. reflexivity. }
  split; [exact H1|]. split; [exact H2|]. split; [exact H3|].
  destruct (update_then_get 1 new_contact alice db_two feb11 H1 H2 H3)
    as (c & db' & Hrun & Hread & Hdata & _).
  exists c, db'. split; [exact Hrun|]. split; [exact Hread|].
  rewrite Hdata. reflexivity.
Defined.

Lemma missing_and_foreign_answer_alike_witness :
  contacts db_two !! 7 = None /\
  (contacts db_two !! 1 = Some feb11 /\ Contact.user_id feb11 <> User.id bob) /\
  routes_contacts.read_contact 7 bob db_two =
    (Raise (HTTPException 404 "Contact not found"), db_two) /\
  routes_contacts.read_contact 1 bob db_two =
    (Raise (HTTPException 404 "Contact not found"), db_two) /\
  routes_contacts.remove_contact 1 bob db_two =
    (Raise (HTTPException 404 "Contact not found"), db_two).
Proof.
  assert (H1 : contacts db_two !! 7 = None) by (vm_compute; reflexivity).
  assert (H2 : contacts db_two !! 1 = Some feb11) by (vm_compute; reflexivity).
  assert (H3 : Contact.user_id feb11 <> User.id bob)
    by (vm_compute; discriminate).
  split; [exact H1|]. split; [exact (conj H2 H3)|].
  destruct (missing_and_foreign_answer_alike 7 bob db_two (or_introl H1))
    as (Hmissing & _).
  destruct (missing_and_foreign_answer_alike 1 bob db_two
              (or_intror (ex_intro _ feb11 (conj H2 H3))))
    as (Hforeign & _ & Hremove).
  split; [exact Hmissing|]. split; [exact Hforeign | exact Hremove].
Defined.

Lemma remove_contact_twice_witness :
  contacts db_two !! 2 = Some may15 /\
  Contact.user_id may15 = User.id alice /\
  exists db',
    routes_contacts.remove_contact 2 alice db_two =
      (Ok (Contact.mk 2 may15), db') /\
    routes_contacts.remove_contact 2 alice db' =
      (Raise (HTTPException 404 "Contact not found"), db').
Proof.
  assert (H1 : contacts db_two !! 2 = Some may15) by (vm_compute; reflexivity).
  assert (H2 : Contact.user_id may15 = User.id alice) by reflexivity.
  split; [exact H1|]. split; [exact H2|].
  destruct (remove_contact_twice 2 alice db_two may15 H1 H2)
    as (db' & Hrun & _ & _ & Hagain & _).
  exists db'. split; [exact Hrun | exact Hagain].
Defined.

Lemma users_stay_unique_witness :
  users_unique db_two = true /\
  users_unique (create_user gravatar_up 0 carol db_two).2 = true /\
  users_unique (create_user gravatar_up 0 bob_again db_two).2 = true /\
  users_unique (update_token bob (Some "token") db_two).2 = true.
Proof.
  assert (H1 : users_unique db_two = true) by (vm_compute; reflexivity).
  split; [exact H1|].
  destruct (users_stay_unique db_two H1) as (Hc & _ & _ & Ht).
  split; [exact (Hc gravatar_up 0 carol)|].
  split; [exact (Hc gravatar_up 0 bob_again) | exact (Ht bob (Some "token"))].
Defined.

Lemma create_user_then_lookup_witness :
  (forall k r, users db_two !! k = Some r ->
               User.email r <> UserModel.email carol) /\
  exists user db',
    create_user gravatar_up 7 carol db_two = (Ok user, db') /\
    get_user_by_email "carol@example.com" db' = (Ok (Some user), db') /\
    User.confirmed (User.data user) = false.
Proof.
  assert (H1 : forall k r, users db_two !! k = Some r ->
                 User.email r <> UserModel.email carol).
  { apply (no_user_conflict 0 (new_user carol None 0) db_two).
    - vm_compute. reflexivity.
    - vm_compute. reflexivity. }
  split; [exact H1|].
  destruct (create_user_then_lookup gravatar_up 7 carol db_two H1)
    as (user & db' & Hrun & Hget & Hconf & _).
  exists user, db'. split; [exact Hrun|]. split; [exact Hget | exact Hconf].
Defined.

Lemma confirmed_email_marks_user_witness :
  users_unique db_signup = true /\
  users db_signup !! 3 = Some (User.data dave) /\
  User.confirmed (User.data dave) = false /\
  exists db' r',
    confirmed_email "dave@example.com" db_signup = (Ok tt, db') /\
    users db' = <[3 := r']> (users db_signup) /\
    User.confirmed r' = true /\
    User.username r' = "dave1" /\
    get_user_by_email "dave@example.com" db' = (Ok (Some (User.mk 3 r')), db').
Proof.
  assert (H1 : users_unique db_signup = true) by (vm_compute; reflexivity).
  assert (H2 : users db_signup !! 3 = Some (User.data dave))
    by (vm_compute; reflexivity).
  split; [exact H1|]. split; [exact H2|]. split; [reflexivity|].
  destruct (confirmed_email_marks_user db_signup 3 (User.data dave) H1 H2)
    as (db' & r' & Hrun & Hdb & _ & Hconf & Hname & _ & _ & _ & _ & _ & Hget & _).
  exists db', r'. split; [exact Hrun|]. split; [exact Hdb|].
  split; [exact Hconf|]. split; [exact Hname | exact Hget].
Defined.

Lemma update_avatar_stores_url_witness :
  users_unique db_two = true /\
  users db_two !! 2 = Some (User.data bob) /\
  exists db' r',
    update_avatar "bob@example.com" "https://img.example.com/b.png" db_two =
      (Ok (User.mk 2 r'), db') /\
    users db' = <[2 := r']> (users db_two) /\
    User.avatar r' = Some "https://img.example.com/b.png" /\
    User.username r' = "bobby" /\
    get_user_by_email "bob@example.com" db' = (Ok (Some (User.mk 2 r')), db').
Proof.
  assert (H1 : users_unique db_two = true) by (vm_compute; reflexivity).
  assert (H2 : users db_two !! 2 = Some (User.data bob))
    by (vm_compute; reflexivity).
  split; [exact H1|]. split; [exact H2|].
  destruct (update_avatar_stores_url db_two 2 (User.data bob)
              "https://img.example.com/b.png" H1 H2)
    as (db' & r' & Hrun & Hdb & _ & Hav & Hname & _ & _ & _ & _ & _ & Hget).
  exists db', r'. split; [exact Hrun|]. split; [exact Hdb|].
  split; [exact Hav|]. split; [exact Hname | exact Hget].
Defined.

Lemma update_token_sets_and_clears_witness :
  users_unique db_two = true /\
  users db_two !! User.id bob = Some (User.data bob) /\
  User.refresh_token (User.data bob) = None /\
  exists db' r',
    update_token bob (Some "refresh") db_two = (Ok tt, db') /\
    users db' = <[2 := r']> (users db_two) /\
    User.refresh_token r' = Some "refresh" /\
    User.username r' = "bobby" /\
    get_user_by_email "bob@example.com" db' = (Ok (Some (User.mk 2 r')), db').
Proof.
  assert (H1 : users_unique db_two = true) by (vm_compute; reflexivity).
  assert (H2 : users db_two !! User.id bob = Some (User.data bob))
    by (vm_compute; reflexivity).
  split; [exact H1|]. split; [exact H2|]. split; [reflexivity|].
  destruct (update_token_sets_and_clears bob (Some "refresh") db_two H1 H2)
    as (db' & r' & Hrun & Hdb & _ & Htok & Hname & _ & _ & _ & _ & _ & Hget & _).
  exists db', r'. split; [exact Hrun|]. split; [exact Hdb|].
  split; [exact Htok|]. split; [exact Hname | exact Hget].
Defined.

End more_instances.
